(** * InventoryManagement: a shallow embedding of [inventory_db.py]

    The program is a thin layer over one SQLite table, [products], and two
    CSV batch formats.  The embedding follows the source method by method:

    - the table is a finite map from the INTEGER PRIMARY KEY to the other
      four columns;
    - every SQL statement that occurs in the source is a function on tables;
    - a method is a computation in a small state-and-exception monad over a
      [world]: the committed store, the working copy of the one open
      connection, and the trace of externally visible effects (statements,
      commit, close, file move, invoice emission);
    - Python exceptions are values of [exn]; a method that raises leaves the
      committed store as it was, because nothing was committed.

    Modelling conventions.  INTEGER columns and Python [int]s are [Z]: the
    development covers executions whose integers stay inside SQLite's signed
    64-bit range, where its integer arithmetic is exact.  REAL columns and
    Python [float]s are binary64 numbers ([PrimFloat.float]).  The store of
    the model keeps every value as it is given.  SQLite does so for the
    integers of [int64] and the floats of [stored_as_is]: outside of them
    the sqlite3 module raises [OverflowError] when it binds an integer,
    SQLite turns an integer sum into a REAL, binds NaN as NULL and gives
    the negative zero back as the positive one.  The theorems that speak of
    what a statement stores carry these ranges as hypotheses.  The arguments
    have the types the docstrings give them.  The CSV reader, the spreadsheet
    writer and the file system are outside the program: a batch file is the
    list of rows [csv.DictReader] yields, and writing the invoice and moving
    the file are events of the trace. *)

From Stdlib Require Import ZArith String Ascii Floats.
From stdpp Require Import gmap list strings sorting.

Local Open Scope Z_scope.

(** ** Exceptions and results *)

Inductive exn : Type :=
  | ValueError (msg : string)
  | TypeError
  | IndexError
  | OverflowError
  | IntegrityError
  | OSError.

Inductive result (A : Type) : Type :=
  | Ok (a : A)
  | Raise (e : exn).
Arguments Ok {A} a.
Arguments Raise {A} e.

(** ** The [products] table *)

(** One row of [products] without its key:
    [product_name TEXT NOT NULL, quantity INTEGER NOT NULL,
     price REAL NOT NULL, description TEXT]. *)
Record product : Type := mkProduct {
  product_name : string;
  quantity : Z;
  price : float;
  description : option string
}.

Abbreviation table := (gmap Z product).

(** What [SELECT *] hands to Python: the tuple
    [(id, product_name, quantity, price, description)]. *)
Definition db_row : Type := Z * string * Z * float * option string.

Definition row_of (id : Z) (p : product) : db_row :=
  (id, product_name p, quantity p, price p, description p).

Definition set_quantity (q : Z) (p : product) : product :=
  mkProduct (product_name p) q (price p) (description p).

(** The statements of the source. *)
Inductive statement : Type :=
  | InsertWithId (id : Z) (name : string) (q : Z) (pr : float) (d : option string)
  | InsertAuto (name : string) (q : Z) (pr : float) (d : option string)
  | UpdateAdd (q id : Z)
  | UpdateSub (q id : Z)
  | UpdateSet (q id : Z)
  | SelectQuantity (id : Z)
  | SelectAll (id : Z).

(** The rowid SQLite picks for an INSERT that names no id: one more than the
    largest rowid in use, and 1 in an empty table. *)
Definition rowids (t : table) : list Z := (map_to_list t).*1.

Definition next_rowid (t : table) : Z :=
  match rowids t with
  | [] => 1
  | k :: ks => foldr Z.max k ks + 1
  end.

(** [INSERT INTO products (id, ...) VALUES (?, ...)]: the primary key must
    be free. *)
Definition insert_with_id (id : Z) (p : product) (t : table) : result table :=
  match t !! id with
  | Some _ => Raise IntegrityError
  | None => Ok (<[id := p]> t)
  end.

(** [INSERT INTO products (product_name, ...) VALUES (?, ...)]. *)
Definition insert_auto (p : product) (t : table) : table :=
  <[next_rowid t := p]> t.

(** [UPDATE products SET quantity = quantity + ? WHERE id = ?]. *)
Definition update_add (q id : Z) (t : table) : table :=
  alter (fun p => set_quantity (quantity p + q) p) id t.

(** [UPDATE products SET quantity = quantity - ? WHERE id = ?]. *)
Definition update_sub (q id : Z) (t : table) : table :=
  alter (fun p => set_quantity (quantity p - q) p) id t.

(** [UPDATE products SET quantity = ? WHERE id = ?]. *)
Definition update_set (q id : Z) (t : table) : table :=
  alter (set_quantity q) id t.

(** [SELECT quantity FROM products WHERE id = ?] then [fetchone()[0]]. *)
Definition select_quantity (id : Z) (t : table) : option Z :=
  quantity <$> t !! id.

(** [SELECT * FROM products WHERE id = ?] then [fetchone()]. *)
Definition select_all (id : Z) (t : table) : option db_row :=
  row_of id <$> t !! id.

(** ** Invoice lines *)

(** The dictionaries collected in [invoice_data]. *)
Record invoice_item : Type := mkItem {
  Product_ID : Z;
  Product_Name : string;
  Quantity : Z;
  Unit_Price : float;
  Total_Price : float
}.

(** ** The world and the monad of methods *)

Inductive event : Type :=
  | EvConnect
  | EvExecute (s : statement)
  | EvCommit
  | EvClose
  | EvMove (src dst : string)
  | EvWriteInvoice (lines : list invoice_item) (filename : string).

(** One data row of a batch file as [csv.DictReader] yields it:
    [row.get('CODECONTENT', None)] and [row.get('QUANTITY', None)]. *)
Record csv_row : Type := mkRow {
  CODECONTENT : option string;
  QUANTITY : option string
}.

(** [store] is the content of [inventory_database.db]; [work] is what the
    open connection sees, its uncommitted changes included; [files] maps a
    path to the rows of the batch file found there; [blocked] lists the
    paths [shutil.move] cannot move (no destination directory, a file of
    that name already there, ...). *)
Record world : Type := mkWorld {
  store : table;
  work : table;
  trace : list event;
  files : gmap string (list csv_row);
  blocked : list string
}.

Definition M (A : Type) : Type := world -> result A * world.

Definition ret {A} (a : A) : M A := fun w => (Ok a, w).

Definition raise {A} (e : exn) : M A := fun w => (Raise e, w).

Definition bind {A B} (m : M A) (k : A -> M B) : M B :=
  fun w =>
    match m w with
    | (Ok a, w') => k a w'
    | (Raise e, w') => (Raise e, w')
    end.

Notation "x <- m ;; k" := (bind m (fun x => k))
  (at level 100, m at next level, right associativity).
Notation "m ;;; k" := (bind m (fun _ => k))
  (at level 100, right associativity).

Definition lift {A} (r : result A) : M A := fun w => (r, w).

Definition emit (ev : event) : M unit :=
  fun w => (Ok tt, mkWorld (store w) (work w) (trace w ++ [ev]) (files w) (blocked w)).

Definition get_work : M table := fun w => (Ok (work w), w).

Definition put_work (t : table) : M unit :=
  fun w => (Ok tt, mkWorld (store w) t (trace w) (files w) (blocked w)).

(** [self.connect_db()]: a fresh connection sees the committed store. *)
Definition connect_db : M unit :=
  fun w => (Ok tt, mkWorld (store w) (store w) (trace w ++ [EvConnect]) (files w) (blocked w)).

(** [conn.commit()]. *)
Definition commit : M unit :=
  fun w => (Ok tt, mkWorld (work w) (work w) (trace w ++ [EvCommit]) (files w) (blocked w)).

(** [conn.close()]: what was not committed is lost. *)
Definition close : M unit :=
  fun w => (Ok tt, mkWorld (store w) (store w) (trace w ++ [EvClose]) (files w) (blocked w)).

(** [cursor.execute(...)] for the statements that write. *)
Definition execute (s : statement) : M unit :=
  emit (EvExecute s) ;;;
  t <- get_work ;;
  match s with
  | InsertWithId id name q pr d =>
      t' <- lift (insert_with_id id (mkProduct name q pr d) t) ;; put_work t'
  | InsertAuto name q pr d => put_work (insert_auto (mkProduct name q pr d) t)
  | UpdateAdd q id => put_work (update_add q id t)
  | UpdateSub q id => put_work (update_sub q id t)
  | UpdateSet q id => put_work (update_set q id t)
  | SelectQuantity _ | SelectAll _ => ret tt
  end.

(** [cursor.execute('SELECT quantity ...'); cursor.fetchone()]. *)
Definition query_quantity (id : Z) : M (option Z) :=
  execute (SelectQuantity id) ;;;
  t <- get_work ;;
  ret (select_quantity id t).

(** [cursor.execute('SELECT * ...'); cursor.fetchone()]. *)
Definition query_all (id : Z) : M (option db_row) :=
  execute (SelectAll id) ;;;
  t <- get_work ;;
  ret (select_all id t).

(** [open(filename, ...)] and [csv.DictReader]: the rows of the file. *)
Definition open_csv (filename : string) : M (list csv_row) :=
  fun w =>
    match files w !! filename with
    | Some rows => (Ok rows, w)
    | None => (Raise OSError, w)
    end.

(** [shutil.move(src, dst)]: the file leaves [src]. *)
Definition shutil_move (src dst : string) : M unit :=
  fun w =>
    match files w !! src with
    | None => (Raise OSError, w)
    | Some _ =>
        if bool_decide (src ∈ blocked w) then (Raise OSError, w)
        else (Ok tt, mkWorld (store w) (work w) (trace w ++ [EvMove src dst])
                             (delete src (files w)) (blocked w))
    end.

(** ** Product catalog operations *)

(** Python's truth value of the optional argument [product_id]: [None] and
    [0] are false. *)
Definition truthy_id (product_id : option Z) : option Z :=
  match product_id with
  | Some i => if i =? 0 then None else Some i
  | None => None
  end.

Definition add_product (name : string) (q : Z) (pr : float)
    (d : option string) (product_id : option Z) : M unit :=
  connect_db ;;;
  match truthy_id product_id with
  | Some i => execute (InsertWithId i name q pr d)
  | None => execute (InsertAuto name q pr d)
  end ;;;
  commit ;;;
  close.

Definition add_stock (product_id q : Z) : M unit :=
  if q <? 0 then raise (ValueError "Quantity to add must be non-negative.")
  else
    connect_db ;;;
    execute (UpdateAdd q product_id) ;;;
    commit ;;;
    close.

Definition remove_stock (product_id q : Z) : M unit :=
  if q <? 0 then raise (ValueError "Quantity to remove must be non-negative.")
  else
    connect_db ;;;
    current_quantity <- query_quantity product_id ;;
    match current_quantity with
    | None => raise (ValueError "Product ID not found.")
    | Some current_quantity =>
        if q >? current_quantity
        then raise (ValueError "Cannot remove more than available quantity.")
        else
          execute (UpdateSub q product_id) ;;;
          commit ;;;
          close
    end.

Definition update_quantity (product_id new_quantity : Z) : M unit :=
  connect_db ;;;
  execute (UpdateSet new_quantity product_id) ;;;
  commit ;;;
  close.

Definition get_product (product_id : Z) : M (option db_row) :=
  connect_db ;;;
  product <- query_all product_id ;;
  close ;;;
  ret product.

(** ** Python values used by the batch methods *)

(** [int(s)] and [float(s)] on strings are builtins of the language, not
    code of the program: the batch methods are parametric in them.  [None]
    stands for a string the builtin rejects with [ValueError]. *)
Class Builtins : Type := {
  int_of_str : string -> option Z;
  float_of_str : string -> option float
}.

(** [int(x)] where [x] is a string or [None]. *)
Definition py_int `{Builtins} (x : option string) : result Z :=
  match x with
  | None => Raise TypeError
  | Some s =>
      match int_of_str s with
      | Some z => Ok z
      | None => Raise (ValueError "invalid literal for int() with base 10")
      end
  end.

(** [float(s)] where [s] is a string. *)
Definition py_float `{Builtins} (s : string) : result float :=
  match float_of_str s with
  | Some x => Ok x
  | None => Raise (ValueError "could not convert string to float")
  end.

(** The binary64 number nearest to an integer (ties to even). *)
Definition float_of_Z (z : Z) : float :=
  SF2Prim (binary_normalize prec emax z 0 false).

(** The conversion of an [int] operand of a float operation: an integer
    beyond the binary64 range raises [OverflowError]. *)
Definition float_of_int (z : Z) : result float :=
  let x := float_of_Z z in
  if PrimFloat.is_infinity x then Raise OverflowError else Ok x.

(** [n * x] for an [int] [n] and a [float] [x]. *)
Definition int_times_float (n : Z) (x : float) : result float :=
  match float_of_int n with
  | Ok y => Ok (PrimFloat.mul y x)
  | Raise e => Raise e
  end.

(** [s.split(', ')]. *)
Fixpoint split_from (acc s : string) : list string :=
  match s with
  | EmptyString => [acc]
  | String "," (String " " rest) => acc :: split_from EmptyString rest
  | String c rest => split_from (acc +:+ String c EmptyString) rest
  end.

Definition split_comma_space (s : string) : list string :=
  split_from EmptyString s.

(** [l[i]]. *)
Definition index {A} (l : list A) (i : nat) : result A :=
  match l !! i with
  | Some x => Ok x
  | None => Raise IndexError
  end.

(** The truth value of [product_data]: [None] and the empty string are
    false. *)
Definition truthy_str (x : option string) : option string :=
  match x with
  | Some EmptyString => None
  | Some s => Some s
  | None => None
  end.

(** [for row in reader: ...] with the variables the body updates. *)
Fixpoint for_each {A S} (body : A -> S -> M S) (l : list A) (s : S) : M S :=
  match l with
  | [] => ret s
  | x :: l' => s' <- body x s ;; for_each body l' s'
  end.

(** ** Outgoing goods *)

(** The block under [# Add to invoice data]: the first line of the product
    is updated in place, or a new line is appended. *)
Definition add_to_invoice (product_id : Z) (name : string)
    (product_quantity : Z) (product_price : float)
    (invoice_data : list invoice_item) : result (list invoice_item) :=
  match list_find (fun item => Product_ID item = product_id) invoice_data with
  | Some (i, item) =>
      match int_times_float product_quantity product_price with
      | Ok x =>
          Ok (<[i := mkItem (Product_ID item) (Product_Name item)
                       (Quantity item + product_quantity) (Unit_Price item)
                       (PrimFloat.add (Total_Price item) x)]> invoice_data)
      | Raise e => Raise e
      end
  | None =>
      match int_times_float product_quantity product_price with
      | Ok x =>
          Ok (invoice_data ++
                [mkItem product_id name product_quantity product_price x])
      | Raise e => Raise e
      end
  end.

(** The body of the loop of [process_outgoing_goods]. *)
Definition outgoing_row `{Builtins} (row : csv_row)
    (invoice_data : list invoice_item) : M (list invoice_item) :=
  let product_data := CODECONTENT row in
  product_quantity <- lift (py_int (QUANTITY row)) ;;
  match truthy_str product_data with
  | Some s =>
      let product_info := split_comma_space s in
      s0 <- lift (index product_info 0) ;;
      product_id <- lift (py_int (Some s0)) ;;
      name <- lift (index product_info 1) ;;
      s2 <- lift (index product_info 2) ;;
      product_price <- lift (py_float s2) ;;
      existing_product <- query_all product_id ;;
      match existing_product with
      | Some (_, _, q, _, _) =>
          let new_quantity := q - product_quantity in
          let new_quantity := Z.max new_quantity 0 in
          execute (UpdateSet new_quantity product_id)
      | None => ret tt
      end ;;;
      lift (add_to_invoice product_id name product_quantity product_price
              invoice_data)
  | None => ret invoice_data
  end.

(** [self.write_invoice(invoice_data, filename)]: the spreadsheet has one
    row per line of [invoice_data]. *)
Definition write_invoice (invoice_data : list invoice_item)
    (filename : string) : M unit :=
  emit (EvWriteInvoice invoice_data filename).

Definition process_outgoing_goods `{Builtins} (filename : string) : M unit :=
  connect_db ;;;
  rows <- open_csv filename ;;
  invoice_data <- for_each outgoing_row rows [] ;;
  shutil_move filename "./OutgoingGoods/Processed" ;;;
  commit ;;;
  close ;;;
  write_invoice invoice_data filename.

(** ** Incoming goods *)

(** The body of the loop of [process_incoming_goods]. *)
Definition incoming_row `{Builtins} (row : csv_row) (_ : unit) : M unit :=
  let product_data := CODECONTENT row in
  let product_quantity := QUANTITY row in
  match truthy_str product_data with
  | Some s =>
      let product_info := split_comma_space s in
      s0 <- lift (index product_info 0) ;;
      product_id <- lift (py_int (Some s0)) ;;
      existing_product <- query_all product_id ;;
      match existing_product with
      | Some (_, _, q, _, _) =>
          n <- lift (py_int product_quantity) ;;
          let new_quantity := q + n in
          execute (UpdateSet new_quantity product_id)
      | None =>
          name <- lift (index product_info 1) ;;
          n <- lift (py_int product_quantity) ;;
          s2 <- lift (index product_info 2) ;;
          pr <- lift (py_float s2) ;;
          d <- lift (index product_info 3) ;;
          execute (InsertWithId product_id name n pr (Some d))
      end
  | None => ret tt
  end.

Definition process_incoming_goods `{Builtins} (filename : string) : M unit :=
  connect_db ;;;
  rows <- open_csv filename ;;
  for_each incoming_row rows tt ;;;
  shutil_move filename "./IncomingGoods/Processed" ;;;
  commit ;;;
  close.

(** The identifier of the row a call of [add_product] creates. *)
Definition new_id (product_id : option Z) (t : table) : Z :=
  match truthy_id product_id with
  | Some i => i
  | None => next_rowid t
  end.

(** ** Sequences of stock adjustments *)

Inductive stock_call : Type :=
  | AddStock (product_id q : Z)
  | RemoveStock (product_id q : Z).

Definition run_call (c : stock_call) : M unit :=
  match c with
  | AddStock i q => add_stock i q
  | RemoveStock i q => remove_stock i q
  end.

(** A caller that issues the calls one after the other, and goes on when a
    call raises. *)
Fixpoint run_calls (cs : list stock_call) (w : world) : world :=
  match cs with
  | [] => w
  | c :: cs' => run_calls cs' (snd (run_call c w))
  end.

(** ** What a batch row says *)

(** The subfields of an outgoing row and its quantity, for a row with
    non-empty content that the loop body reads without raising. *)
Record entry : Type := mkEntry {
  e_id : Z;
  e_name : string;
  e_price : float;
  e_qty : Z
}.

Definition outgoing_entry `{Builtins} (row : csv_row) : option entry :=
  s ← truthy_str (CODECONTENT row);
  qs ← QUANTITY row;
  q ← int_of_str qs;
  s0 ← split_comma_space s !! 0%nat;
  i ← int_of_str s0;
  name ← split_comma_space s !! 1%nat;
  s2 ← split_comma_space s !! 2%nat;
  pr ← float_of_str s2;
  Some (mkEntry i name pr q).

(** The rows of a batch that refer to one product, in file order. *)
Definition rows_for (i : Z) (es : list entry) : list entry :=
  filter (fun e => e_id e = i) es.

(** The sum of integers, and the sum of floats as the loop accumulates it:
    from the first term on, left to right. *)
Definition sum_Z (l : list Z) : Z := foldr Z.add 0 l.

Definition sum_float (l : list float) : float :=
  match l with
  | [] => 0%float
  | x :: r => fold_left PrimFloat.add r x
  end.

(** [quantity * unit price] of one row. *)
Definition amount (e : entry) : float :=
  PrimFloat.mul (float_of_Z (e_qty e)) (e_price e).

(** The identifier, the quantity and the new record of an incoming row. *)
Definition incoming_id `{Builtins} (row : csv_row) : option Z :=
  s ← truthy_str (CODECONTENT row);
  s0 ← split_comma_space s !! 0%nat;
  int_of_str s0.

Definition incoming_quantity `{Builtins} (row : csv_row) : option Z :=
  qs ← QUANTITY row;
  int_of_str qs.

Definition incoming_product `{Builtins} (row : csv_row) : option product :=
  s ← truthy_str (CODECONTENT row);
  name ← split_comma_space s !! 1%nat;
  n ← incoming_quantity row;
  s2 ← split_comma_space s !! 2%nat;
  pr ← float_of_str s2;
  d ← split_comma_space s !! 3%nat;
  Some (mkProduct name n pr (Some d)).

(** The lines of an invoice merge the rows [es]: one line per product, and
    each line sums the rows of its product; every row has its line. *)
Definition merged (es : list entry) (lines : list invoice_item) : Prop :=
  NoDup (Product_ID <$> lines) /\
  (forall item, item ∈ lines ->
     rows_for (Product_ID item) es <> [] /\
     Quantity item = sum_Z (e_qty <$> rows_for (Product_ID item) es) /\
     Total_Price item =
       sum_float (amount <$> rows_for (Product_ID item) es)) /\
  (forall e, e ∈ es -> exists item, item ∈ lines /\ Product_ID item = e_id e).

(** The stock of a product after the outgoing rows [es]: each row of the
    product takes its quantity off, down to zero at most. *)
Definition floor_sub (stock : Z) (e : entry) : Z := Z.max (stock - e_qty e) 0.

(** ** Orders of effects *)

(** A computation that only runs statements on the open connection: it
    commits nothing, touches no file, and adds only statement events. *)
Definition only_executes {A} (m : M A) : Prop :=
  forall w r w', m w = (r, w') ->
    store w' = store w /\ files w' = files w /\ blocked w' = blocked w /\
    exists stmts, trace w' = trace w ++ (EvExecute <$> stmts).


(** Every file move of the trace has a commit before it. *)
Definition moved_after_commit (tr : list event) : Prop :=
  forall (i : nat) src dst, tr !! i = Some (EvMove src dst) ->
    exists j : nat, (j < i)%nat /\ tr !! j = Some EvCommit.

(** ** Decimal numerals *)

(** The builtins on plain ASCII decimal numerals: an optional sign and
    digits for [int]; an optional sign, digits and an optional fraction for
    [float], as long as the digits denote an integer below [2^53] and the
    fraction has at most 22 digits, where one division of two exactly
    represented numbers gives the nearest binary64 number.  Other strings
    are outside this fragment and are rejected here. *)
Definition digit_of (c : ascii) : option Z :=
  let n := Z.of_N (N_of_ascii c) in
  if (48 <=? n) && (n <=? 57) then Some (n - 48) else None.

Fixpoint digits_value (acc : Z) (s : string) : option Z :=
  match s with
  | EmptyString => Some acc
  | String c r =>
      match digit_of c with
      | Some d => digits_value (10 * acc + d) r
      | None => None
      end
  end.

Definition decimal_nat (s : string) : option Z :=
  match s with
  | EmptyString => None
  | _ => digits_value 0 s
  end.

Definition decimal_int (s : string) : option Z :=
  match s with
  | String "-" r => Z.opp <$> decimal_nat r
  | String "+" r => decimal_nat r
  | _ => decimal_nat s
  end.

Fixpoint split_point (acc s : string) : string * option string :=
  match s with
  | EmptyString => (acc, None)
  | String "." r => (acc, Some r)
  | String c r => split_point (acc +:+ String c EmptyString) r
  end.

Definition decimal_unsigned_float (s : string) : option float :=
  match split_point EmptyString s with
  | (ip, None) =>
      m ← decimal_nat ip;
      if m <? 2 ^ 53 then Some (float_of_Z m) else None
  | (ip, Some fp) =>
      _ ← decimal_nat ip;
      _ ← decimal_nat fp;
      m ← decimal_nat (ip +:+ fp);
      let k := Z.of_nat (String.length fp) in
      if (m <? 2 ^ 53) && (k <=? 22)
      then Some (PrimFloat.div (float_of_Z m) (float_of_Z (10 ^ k)))
      else None
  end.

Definition decimal_float (s : string) : option float :=
  match s with
  | String "-" r => PrimFloat.opp <$> decimal_unsigned_float r
  | String "+" r => decimal_unsigned_float r
  | _ => decimal_unsigned_float s
  end.

Definition decimal_builtins : Builtins :=
  {| int_of_str := decimal_int; float_of_str := decimal_float |}.

(** ** Scenarios *)

Definition bolt : product :=
  mkProduct "Bolt" 100 0.5%float (Some "steel bolt"%string).

(** Product 7 at quantity 100, and an outgoing batch of two rows for it. *)
Definition outgoing_batch : list csv_row :=
  [mkRow (Some "7, Bolt, 0.50"%string) (Some "30"%string);
   mkRow (Some "7, Bolt, 0.50"%string) (Some "90"%string)].

Definition world_bolt : world :=
  mkWorld {[7 := bolt]} {[7 := bolt]} []
          {["out.csv"%string := outgoing_batch]} [].

(** An empty catalog and an incoming batch of one row. *)
Definition incoming_batch : list csv_row :=
  [mkRow (Some "7, Bolt, 0.50, steel bolt"%string) (Some "100"%string)].

Definition world_empty : world :=
  mkWorld ∅ ∅ [] {["in.csv"%string := incoming_batch]} [].

(** An outgoing row for a product the catalog does not have. *)
Definition world_unknown : world :=
  mkWorld ∅ ∅ []
          {["out.csv"%string :=
              [mkRow (Some "9, Nut, 0.25"%string) (Some "4"%string)]]} [].

(** Product 7 at quantity 100, and an incoming batch that names product 7
    once and the unknown product 8 twice. *)
Definition mixed_batch : list csv_row :=
  [mkRow (Some "7, Bolt, 0.75, zinc"%string) (Some "20"%string);
   mkRow (Some "8, Nut, 0.25, hex nut"%string) (Some "4"%string);
   mkRow (Some "8, Washer, 0.10, flat"%string) (Some "6"%string)].

Definition world_mixed : world :=
  mkWorld {[7 := bolt]} {[7 := bolt]} []
          {["in.csv"%string := mixed_batch]} [].

(** Two tables have the same products, with the same name, price and
    description each: they differ in quantities at most. *)
Definition same_but_quantities (t t' : table) : Prop :=
  forall i,
    (t' !! i = None <-> t !! i = None) /\
    forall p p', t !! i = Some p -> t' !! i = Some p' ->
      product_name p' = product_name p /\ price p' = price p /\
      description p' = description p.

(** ** The other catalog operations *)

(** [UPDATE products SET product_name = ?, quantity = ?, price = ?,
    description = ? WHERE id = ?]. *)
Definition update_row (p : product) (id : Z) (t : table) : table :=
  alter (fun _ => p) id t.

(** [DELETE FROM products WHERE id = ?]. *)
Definition delete_row (id : Z) (t : table) : table := delete id t.

(** A statement on the open connection.  The trace lists the statements of
    the methods above; the statements of the methods below run without an
    event of their own. *)
Definition modify_work (f : table -> table) : M unit :=
  t <- get_work ;; put_work (f t).

Definition update_product (product_id : Z) (name : string) (q : Z)
    (pr : float) (d : option string) : M unit :=
  connect_db ;;;
  modify_work (update_row (mkProduct name q pr d) product_id) ;;;
  commit ;;;
  close.

Definition delete_product (product_id : Z) : M unit :=
  connect_db ;;;
  modify_work (delete_row product_id) ;;;
  commit ;;;
  close.

(** The rows of the table in the order of SQLite's table scan, by rowid. *)
Definition rowid_le (x y : Z * product) : Prop := x.1 <= y.1.

#[global] Instance rowid_le_dec (x y : Z * product) : Decision (rowid_le x y) :=
  Z_le_dec x.1 y.1.

Definition all_rows (t : table) : list db_row :=
  (fun ip : Z * product => row_of ip.1 ip.2)
    <$> merge_sort rowid_le (map_to_list t).

Definition row_id (r : db_row) : Z := r.1.1.1.1.

Definition row_name (r : db_row) : string := r.1.1.1.2.

(** The operator [LIKE] on ASCII text: [%] stands for any piece of text,
    [_] for any one character, and letters match whatever their case. *)
Definition lower (c : ascii) : ascii :=
  let n := N_of_ascii c in
  if ((65 <=? n) && (n <=? 90))%N then ascii_of_N (n + 32) else c.

Fixpoint like (pattern : string) : string -> bool :=
  match pattern with
  | EmptyString =>
      fun s => match s with EmptyString => true | String _ _ => false end
  | String "%" pattern' =>
      fix any (s : string) : bool :=
        like pattern' s ||
        match s with EmptyString => false | String _ s' => any s' end
  | String "_" pattern' =>
      fun s =>
        match s with EmptyString => false | String _ s' => like pattern' s' end
  | String c pattern' =>
      fun s =>
        match s with
        | EmptyString => false
        | String d s' => Ascii.eqb (lower c) (lower d) && like pattern' s'
        end
  end.

(** [SELECT * FROM products WHERE product_name LIKE ?] with the parameter
    [f'%{name}%'], then [fetchall()]. *)
Definition select_like (name : string) (t : table) : list db_row :=
  filter (fun r => like ("%" +:+ name +:+ "%") (row_name r) = true)
    (all_rows t).

Definition search_products_by_name (name : string) : M (list db_row) :=
  connect_db ;;;
  t <- get_work ;;
  close ;;;
  ret (select_like name t).

Definition list_products : M (list db_row) :=
  connect_db ;;;
  t <- get_work ;;
  close ;;;
  ret (all_rows t).

(** ** Text without wildcards, and containment up to case *)

Fixpoint lower_string (s : string) : string :=
  match s with
  | EmptyString => EmptyString
  | String c s' => String (lower c) (lower_string s')
  end.

Fixpoint plain (s : string) : bool :=
  match s with
  | EmptyString => true
  | String "%" _ => false
  | String "_" _ => false
  | String _ s' => plain s'
  end.

(** [s] has a piece that equals [name] up to the case of ASCII letters. *)
Definition contains_ci (name s : string) : Prop :=
  exists pre mid post,
    s = pre +:+ mid +:+ post /\ lower_string mid = lower_string name.

(** ** What an incoming batch says of one product *)

Definition incoming_pair `{Builtins} (row : csv_row) : option (Z * Z) :=
  i ← incoming_id row;
  n ← incoming_quantity row;
  Some (i, n).

(** The quantities of the rows that name product [i], in file order. *)
Definition quantities_for (i : Z) (ps : list (Z * Z)) : list Z :=
  snd <$> filter (fun p : Z * Z => p.1 = i) ps.

(** The record of the first row that names product [i]. *)
Fixpoint first_product `{Builtins} (i : Z) (rows : list csv_row)
    : option product :=
  match rows with
  | [] => None
  | row :: rows' =>
      if decide (incoming_id row = Some i) then incoming_product row
      else first_product i rows'
  end.

(** ** The labels of an invoice line *)

(** Every line carries the name and the unit price of the first row of its
    product. *)
Definition first_row_labels (es : list entry) (lines : list invoice_item)
    : Prop :=
  forall item, item ∈ lines ->
    exists e rest,
      rows_for (Product_ID item) es = e :: rest /\
      Product_Name item = e_name e /\ Unit_Price item = e_price e.

(** ** Joining the subfields *)

(** [', '.join(l)]. *)
Fixpoint join_comma_space (l : list string) : string :=
  match l with
  | [] => EmptyString
  | [x] => x
  | x :: l' => x +:+ ", " +:+ join_comma_space l'
  end.

(** ** The values SQLite stores as they are *)

(** An integer that the sqlite3 module binds and SQLite keeps as an
    INTEGER: a signed 64-bit number.  Binding another [int] raises
    [OverflowError], and integer arithmetic that leaves the range gives a
    REAL. *)
Definition int64 (z : Z) : bool := (- 2 ^ 63 <=? z) && (z <? 2 ^ 63).

(** A float that a REAL column gives back bit for bit: every one but NaN,
    which is bound as NULL and so fails [NOT NULL], and the negative zero,
    which comes back as the positive zero. *)
Definition stored_as_is (x : float) : bool :=
  negb (PrimFloat.is_nan x) &&
  negb (PrimFloat.is_zero x && PrimFloat.get_sign x).

(** A text without the character NUL, at which [LIKE] stops reading. *)
Fixpoint no_nul (s : string) : bool :=
  match s with
  | EmptyString => true
  | String c s' => negb (Ascii.eqb c "000") && no_nul s'
  end.

(** SQLite refuses a [LIKE] pattern of 50 000 bytes or more. *)
Definition like_pattern_limit : Z := 50000.

(** ** The part of [process_outgoing_goods] before the commit *)

(** Lines 234 to 269: connect, read the rows, move the file. *)
Definition outgoing_rows_and_move `{Builtins} (filename : string)
    : M (list invoice_item) :=
  connect_db ;;;
  rows <- open_csv filename ;;
  invoice_data <- for_each outgoing_row rows [] ;;
  shutil_move filename "./OutgoingGoods/Processed" ;;;
  ret invoice_data.

(** * Properties *)

(** ** The monad *)

Ltac run :=
  unfold bind, connect_db, query_quantity, query_all, execute, emit,
    get_work, put_work, commit, close, lift, ret, raise; cbn.

Lemma app_snoc {A} (l : list A) (x : A) (r : list A) :
  (l ++ [x]) ++ r = l ++ x :: r.
Proof. by rewrite <- app_assoc. Qed.

(** ** The table *)

Lemma foldr_max_ge (k : Z) (ks : list Z) :
  k <= foldr Z.max k ks /\ Forall (fun j => j <= foldr Z.max k ks) ks.
Proof.
  induction ks as [|x ks [IH1 IH2]]; cbn.
  - split; [lia | constructor].
  - split; [lia |]. constructor; [lia |].
    eapply Forall_impl; [exact IH2 |]. cbn. intros; lia.
Qed.

Lemma rowids_lt_next (t : table) (i : Z) :
  is_Some (t !! i) -> i < next_rowid t.
Proof.
  intros [p Hp]. unfold next_rowid.
  assert (Hin : i ∈ rowids t).
  { unfold rowids. apply list_elem_of_fmap. exists (i, p). split; [done |].
    by apply elem_of_map_to_list. }
  destruct (rowids t) as [|k ks]; [by apply elem_of_nil in Hin |].
  destruct (foldr_max_ge k ks) as [H1 H2].
  apply elem_of_cons in Hin as [-> | Hin]; [lia |].
  rewrite Forall_forall in H2. specialize (H2 _ Hin). lia.
Qed.

(** The rowid of an INSERT that names none is not in use. *)
Lemma next_rowid_fresh (t : table) : t !! next_rowid t = None.
Proof.
  destruct (t !! next_rowid t) eqn:E; [| done].
  assert (next_rowid t < next_rowid t) by (apply rowids_lt_next; eauto).
  lia.
Qed.

Lemma next_rowid_empty : next_rowid ∅ = 1.
Proof. reflexivity. Qed.

(** ** Stock adjustments *)

Lemma add_stock_run (i q : Z) (w : world) :
  0 <= q ->
  add_stock i q w =
    (Ok tt,
     mkWorld (update_add q i (store w)) (update_add q i (store w))
       (trace w ++ [EvConnect; EvExecute (UpdateAdd q i); EvCommit; EvClose])
       (files w) (blocked w)).
Proof.
  intros Hq. unfold add_stock.
  destruct (Z.ltb_spec q 0) as [|_]; [lia |].
  run. by rewrite !app_snoc.
Qed.

Lemma add_stock_negative (i q : Z) (w : world) :
  q < 0 ->
  add_stock i q w =
    (Raise (ValueError "Quantity to add must be non-negative."), w).
Proof.
  intros Hq. unfold add_stock.
  destruct (Z.ltb_spec q 0) as [_|]; [done | lia].
Qed.

Lemma remove_stock_negative (i q : Z) (w : world) :
  q < 0 ->
  remove_stock i q w =
    (Raise (ValueError "Quantity to remove must be non-negative."), w).
Proof.
  intros Hq. unfold remove_stock.
  destruct (Z.ltb_spec q 0) as [_|]; [done | lia].
Qed.

Lemma remove_stock_missing (i q : Z) (w : world) :
  0 <= q -> store w !! i = None ->
  remove_stock i q w =
    (Raise (ValueError "Product ID not found."),
     mkWorld (store w) (store w)
       (trace w ++ [EvConnect; EvExecute (SelectQuantity i)])
       (files w) (blocked w)).
Proof.
  intros Hq Hi. unfold remove_stock.
  destruct (Z.ltb_spec q 0) as [|_]; [lia |].
  run. unfold select_quantity. rewrite Hi. cbn. by rewrite !app_snoc.
Qed.

Lemma remove_stock_excess (i q : Z) (p : product) (w : world) :
  0 <= q -> store w !! i = Some p -> quantity p < q ->
  remove_stock i q w =
    (Raise (ValueError "Cannot remove more than available quantity."),
     mkWorld (store w) (store w)
       (trace w ++ [EvConnect; EvExecute (SelectQuantity i)])
       (files w) (blocked w)).
Proof.
  intros Hq Hi Hlt. unfold remove_stock.
  destruct (Z.ltb_spec q 0) as [|_]; [lia |].
  run. unfold select_quantity. rewrite Hi. cbn.
  destruct (Z.gtb_spec q (quantity p)) as [_|]; [| lia].
  by rewrite !app_snoc.
Qed.

Lemma remove_stock_run (i q : Z) (p : product) (w : world) :
  0 <= q -> store w !! i = Some p -> q <= quantity p ->
  remove_stock i q w =
    (Ok tt,
     mkWorld (update_sub q i (store w)) (update_sub q i (store w))
       (trace w ++ [EvConnect; EvExecute (SelectQuantity i);
                    EvExecute (UpdateSub q i); EvCommit; EvClose])
       (files w) (blocked w)).
Proof.
  intros Hq Hi Hle. unfold remove_stock.
  destruct (Z.ltb_spec q 0) as [|_]; [lia |].
  run. unfold select_quantity. rewrite Hi. cbn.
  destruct (Z.gtb_spec q (quantity p)) as [|_]; [lia |].
  cbn. by rewrite !app_snoc.
Qed.

Lemma alter_found (f : product -> product) (i : Z) (t : table) (p : product) :
  t !! i = Some p -> alter f i t = <[i := f p]> t.
Proof.
  intros Hp. apply map_eq. intros j.
  rewrite lookup_alter, lookup_insert.
  case_decide; subst; [by rewrite Hp | done].
Qed.

Lemma alter_missing (f : product -> product) (i : Z) (t : table) :
  t !! i = None -> alter f i t = t.
Proof.
  intros Hp. apply map_eq. intros j.
  rewrite lookup_alter.
  case_decide; subst; [by rewrite Hp | done].
Qed.

(** C7.  [add_stock(id, qty)] with a negative [qty] raises the
    invalid-argument [ValueError] and changes nothing, no stored quantity
    included.  With a non-negative [qty] it returns, and the stored
    quantity of product [id] has grown by exactly [qty], all other columns
    and rows being as before; when no product has the identifier [id], the
    catalog is as before.  The identifier, [qty], the stored quantity and
    the new one are 64-bit integers: otherwise the sqlite3 module refuses
    to bind them, or SQLite stores the sum as a REAL. *)
Theorem add_stock_contract (i q : Z) (w : world) :
  (q < 0 ->
     add_stock i q w =
       (Raise (ValueError "Quantity to add must be non-negative."), w)) /\
  (0 <= q -> int64 i = true -> int64 q = true ->
     (forall p, store w !! i = Some p ->
        int64 (quantity p) = true -> int64 (quantity p + q) = true ->
        fst (add_stock i q w) = Ok tt /\
        exists p',
          store (snd (add_stock i q w)) = <[i := p']> (store w) /\
          quantity p' = quantity p + q /\
          product_name p' = product_name p /\ price p' = price p /\
          description p' = description p) /\
     (store w !! i = None ->
        fst (add_stock i q w) = Ok tt /\
        store (snd (add_stock i q w)) = store w)).
Proof.
  split; [apply add_stock_negative |].
  intros Hq _ _. rewrite add_stock_run by done. cbn.
  split.
  - intros p Hp _ _. split; [done |]. unfold update_add.
    rewrite (alter_found _ _ _ p) by done.
    exists (set_quantity (quantity p + q) p). by cbn.
  - intros Hp. split; [done |]. unfold update_add. by rewrite alter_missing.
Qed.

Lemma add_stock_contract_witness :
  add_stock 7 (-1) world_bolt =
    (Raise (ValueError "Quantity to add must be non-negative."), world_bolt) /\
  (fst (add_stock 7 5 world_bolt) = Ok tt /\
   exists p',
     store (snd (add_stock 7 5 world_bolt)) = <[7 := p']> (store world_bolt) /\
     quantity p' = quantity bolt + 5 /\
     product_name p' = product_name bolt /\ price p' = price bolt /\
     description p' = description bolt) /\
  (fst (add_stock 8 5 world_bolt) = Ok tt /\
   store (snd (add_stock 8 5 world_bolt)) = store world_bolt).
Proof.
  destruct (add_stock_contract 7 (-1) world_bolt) as [Hneg _].
  destruct (add_stock_contract 7 5 world_bolt) as [_ Hpos].
  destruct (add_stock_contract 8 5 world_bolt) as [_ Hmiss].
  split; [apply Hneg; lia |].
  destruct Hpos as [Hfound _]; [lia | reflexivity | reflexivity |].
  destruct Hmiss as [_ Hnone]; [lia | reflexivity | reflexivity |].
  split; [apply (Hfound bolt); reflexivity | apply Hnone; reflexivity].
Defined.

(** C2.  [remove_stock(id, qty)] checks in this order.  A negative [qty]
    raises the invalid-argument [ValueError] ("must be non-negative").
    Otherwise, when no product has the identifier [id], it raises the
    not-found [ValueError] ("Product ID not found.").  Otherwise, when
    [qty] exceeds the stored quantity, it raises the invalid-argument
    [ValueError] ("Cannot remove more than available quantity.").  In these
    three cases the store is as before.  In the remaining case it returns
    and the stored quantity of the product is smaller by exactly [qty], all
    other columns and rows being as before.  From the second case on the
    identifier is a 64-bit integer, and so is the stored quantity:
    otherwise the sqlite3 module refuses to bind the identifier. *)
Theorem remove_stock_contract (i q : Z) (w : world) :
  (q < 0 ->
     remove_stock i q w =
       (Raise (ValueError "Quantity to remove must be non-negative."), w)) /\
  (0 <= q -> int64 i = true -> store w !! i = None ->
     fst (remove_stock i q w) = Raise (ValueError "Product ID not found.") /\
     store (snd (remove_stock i q w)) = store w) /\
  (forall p, 0 <= q -> int64 i = true -> store w !! i = Some p ->
     int64 (quantity p) = true -> quantity p < q ->
     fst (remove_stock i q w) =
       Raise (ValueError "Cannot remove more than available quantity.") /\
     store (snd (remove_stock i q w)) = store w) /\
  (forall p, 0 <= q -> int64 i = true -> store w !! i = Some p ->
     int64 (quantity p) = true -> q <= quantity p ->
     fst (remove_stock i q w) = Ok tt /\
     exists p',
       store (snd (remove_stock i q w)) = <[i := p']> (store w) /\
       quantity p' = quantity p - q /\
       product_name p' = product_name p /\ price p' = price p /\
       description p' = description p).
Proof.
  split; [apply remove_stock_negative |].
  split; [intros Hq _ Hi; by rewrite remove_stock_missing |].
  split.
  - intros p Hq _ Hi _ Hlt. by rewrite (remove_stock_excess i q p).
  - intros p Hq _ Hi _ Hle. rewrite (remove_stock_run i q p) by done. cbn.
    split; [done |]. unfold update_sub.
    rewrite (alter_found _ _ _ p) by done.
    exists (set_quantity (quantity p - q) p). by cbn.
Qed.

Lemma remove_stock_contract_witness :
  remove_stock 7 (-1) world_bolt =
    (Raise (ValueError "Quantity to remove must be non-negative."),
     world_bolt) /\
  (fst (remove_stock 8 1 world_bolt) =
     Raise (ValueError "Product ID not found.") /\
   store (snd (remove_stock 8 1 world_bolt)) = store world_bolt) /\
  (fst (remove_stock 7 101 world_bolt) =
     Raise (ValueError "Cannot remove more than available quantity.") /\
   store (snd (remove_stock 7 101 world_bolt)) = store world_bolt) /\
  (fst (remove_stock 7 40 world_bolt) = Ok tt /\
   exists p',
     store (snd (remove_stock 7 40 world_bolt)) =
       <[7 := p']> (store world_bolt) /\
     quantity p' = quantity bolt - 40 /\
     product_name p' = product_name bolt /\ price p' = price bolt /\
     description p' = description bolt).
Proof.
  destruct (remove_stock_contract 7 (-1) world_bolt) as (Hneg & _).
  destruct (remove_stock_contract 8 1 world_bolt) as (_ & Hmiss & _).
  destruct (remove_stock_contract 7 101 world_bolt) as (_ & _ & Hexc & _).
  destruct (remove_stock_contract 7 40 world_bolt) as (_ & _ & _ & Hrun).
  split; [apply Hneg; lia |].
  split; [apply Hmiss; [lia | reflexivity | reflexivity] |].
  split;
    [apply (Hexc bolt); [lia | reflexivity | reflexivity | reflexivity
                        | cbn; lia] |].
  apply (Hrun bolt); [lia | reflexivity | reflexivity | reflexivity
                     | cbn; lia].
Defined.

(** ** The quantity invariant *)

Lemma run_call_nonneg (c : stock_call) (w : world) (i : Z) (p : product) :
  store w !! i = Some p -> 0 <= quantity p ->
  exists p', store (snd (run_call c w)) !! i = Some p' /\ 0 <= quantity p'.
Proof.
  intros Hp Hnn. destruct c as [j q | j q]; cbn.
  - destruct (Z.lt_ge_cases q 0) as [Hq | Hq].
    + rewrite add_stock_negative by done. eauto.
    + rewrite add_stock_run by done. cbn. unfold update_add.
      rewrite lookup_alter. case_decide; subst.
      * rewrite Hp. cbn. eexists; split; [done |]. cbn. lia.
      * eauto.
  - destruct (Z.lt_ge_cases q 0) as [Hq | Hq].
    { rewrite remove_stock_negative by done. eauto. }
    destruct (store w !! j) as [pj|] eqn:Hj.
    + destruct (Z.lt_ge_cases (quantity pj) q) as [Hlt | Hle].
      * rewrite (remove_stock_excess j q pj) by done. eauto.
      * rewrite (remove_stock_run j q pj) by done. cbn. unfold update_sub.
        rewrite lookup_alter. case_decide; subst.
        -- rewrite Hp. cbn. eexists; split; [done |]. cbn.
           assert (pj = p) by congruence. subst. lia.
        -- eauto.
    + rewrite remove_stock_missing by done. eauto.
Qed.

(** C1.  A product whose stored quantity is non-negative keeps a
    non-negative stored quantity through every sequence of [add_stock] and
    [remove_stock] calls.  The calls that respect the preconditions (a
    non-negative argument; for [remove_stock], no more than the current
    stock) are the ones that change the store; a call that violates them
    raises and leaves the store as it was, so the sequence need not be
    restricted. *)
Theorem quantity_never_negative (cs : list stock_call) (w : world)
    (i : Z) (p : product) :
  store w !! i = Some p -> 0 <= quantity p ->
  exists p', store (run_calls cs w) !! i = Some p' /\ 0 <= quantity p'.
Proof.
  revert w p. induction cs as [|c cs IH]; intros w p Hp Hnn; cbn.
  - eauto.
  - destruct (run_call_nonneg c w i p Hp Hnn) as (p' & Hp' & Hnn').
    by apply (IH _ p').
Qed.

Lemma quantity_never_negative_witness :
  exists p',
    store (run_calls [AddStock 7 5; RemoveStock 7 105; RemoveStock 7 1]
             world_bolt) !! 7 = Some p' /\ 0 <= quantity p'.
Proof.
  apply (quantity_never_negative _ world_bolt 7 bolt); [reflexivity |].
  cbn. lia.
Defined.

(** ** Creating and reading products *)

Lemma add_product_auto (name : string) (q : Z) (pr : float)
    (d : option string) (product_id : option Z) (w : world) :
  truthy_id product_id = None ->
  add_product name q pr d product_id w =
    (Ok tt,
     mkWorld (<[next_rowid (store w) := mkProduct name q pr d]> (store w))
       (<[next_rowid (store w) := mkProduct name q pr d]> (store w))
       (trace w ++ [EvConnect; EvExecute (InsertAuto name q pr d);
                    EvCommit; EvClose])
       (files w) (blocked w)).
Proof.
  intros Hid. unfold add_product. rewrite Hid. run.
  unfold insert_auto. by rewrite !app_snoc.
Qed.

Lemma add_product_fresh (name : string) (q : Z) (pr : float)
    (d : option string) (product_id : option Z) (i : Z) (w : world) :
  truthy_id product_id = Some i -> store w !! i = None ->
  add_product name q pr d product_id w =
    (Ok tt,
     mkWorld (<[i := mkProduct name q pr d]> (store w))
       (<[i := mkProduct name q pr d]> (store w))
       (trace w ++ [EvConnect; EvExecute (InsertWithId i name q pr d);
                    EvCommit; EvClose])
       (files w) (blocked w)).
Proof.
  intros Hid Hi. unfold add_product. rewrite Hid. run.
  unfold insert_with_id. rewrite Hi. cbn. by rewrite !app_snoc.
Qed.

Lemma add_product_collision (name : string) (q : Z) (pr : float)
    (d : option string) (product_id : option Z) (i : Z) (p : product)
    (w : world) :
  truthy_id product_id = Some i -> store w !! i = Some p ->
  add_product name q pr d product_id w =
    (Raise IntegrityError,
     mkWorld (store w) (store w)
       (trace w ++ [EvConnect; EvExecute (InsertWithId i name q pr d)])
       (files w) (blocked w)).
Proof.
  intros Hid Hi. unfold add_product. rewrite Hid. run.
  unfold insert_with_id. rewrite Hi. cbn. by rewrite !app_snoc.
Qed.

Lemma get_product_run (i : Z) (w : world) :
  get_product i w =
    (Ok (row_of i <$> store w !! i),
     mkWorld (store w) (store w)
       (trace w ++ [EvConnect; EvExecute (SelectAll i); EvClose])
       (files w) (blocked w)).
Proof. unfold get_product. run. unfold select_all. by rewrite !app_snoc. Qed.

(** What [add_product] does for each kind of identifier argument: without
    one, or with the identifier 0, the store picks the next rowid, which is
    free, and all other rows stay; with a non-zero free identifier the row
    gets it; with a non-zero identifier in use the INSERT violates the
    primary key and the store is as before. *)
Lemma add_product_cases (name : string) (q : Z) (pr : float)
    (d : option string) (product_id : option Z) (w : world) :
  match truthy_id product_id with
  | None =>
      store w !! next_rowid (store w) = None /\
      fst (add_product name q pr d product_id w) = Ok tt /\
      store (snd (add_product name q pr d product_id w)) =
        <[next_rowid (store w) := mkProduct name q pr d]> (store w)
  | Some i =>
      match store w !! i with
      | None =>
          fst (add_product name q pr d product_id w) = Ok tt /\
          store (snd (add_product name q pr d product_id w)) =
            <[i := mkProduct name q pr d]> (store w)
      | Some _ =>
          fst (add_product name q pr d product_id w) = Raise IntegrityError /\
          store (snd (add_product name q pr d product_id w)) = store w
      end
  end.
Proof.
  destruct (truthy_id product_id) as [i|] eqn:Hid.
  - destruct (store w !! i) as [p|] eqn:Hi.
    + by rewrite (add_product_collision _ _ _ _ _ i p).
    + by rewrite (add_product_fresh _ _ _ _ _ i).
  - rewrite add_product_auto by done. cbn.
    split; [apply next_rowid_fresh | done].
Qed.

(** C8.  For a quantity that is a 64-bit integer and a price that a REAL
    column gives back as it is (not NaN, not the negative zero): when
    [add_product(name, quantity, price, description, id?)] returns and the
    identifier of the new row is a 64-bit integer, [get_product] on that
    identifier returns the tuple of the identifier and exactly the four
    inserted values; and [add_product] without an identifier returns
    whenever the next rowid is a 64-bit integer. *)
Theorem add_product_get_product (name : string) (q : Z) (pr : float)
    (d : option string) (w : world) :
  int64 q = true -> stored_as_is pr = true ->
  (forall product_id w1,
     int64 (new_id product_id (store w)) = true ->
     add_product name q pr d product_id w = (Ok tt, w1) ->
     fst (get_product (new_id product_id (store w)) w1) =
       Ok (Some (new_id product_id (store w), name, q, pr, d))) /\
  (int64 (next_rowid (store w)) = true ->
   fst (add_product name q pr d None w) = Ok tt).
Proof.
  intros _ _. split.
  - intros product_id w1 _ Hadd. rewrite get_product_run. cbn.
    pose proof (add_product_cases name q pr d product_id w) as Hc.
    unfold new_id. rewrite Hadd in Hc. cbn in Hc.
    destruct (truthy_id product_id) as [i|].
    + destruct (store w !! i).
      * destruct Hc as [Hc _]. discriminate.
      * destruct Hc as [_ ->]. by rewrite lookup_insert_eq.
    + destruct Hc as (_ & _ & ->). by rewrite lookup_insert_eq.
  - intros _. by rewrite add_product_auto.
Qed.

Lemma add_product_get_product_witness :
  fst (get_product (new_id (Some 8) (store world_bolt))
         (snd (add_product "Nut" 4 0.25%float None (Some 8) world_bolt))) =
    Ok (Some (new_id (Some 8) (store world_bolt), "Nut"%string, 4,
              0.25%float, None)) /\
  fst (add_product "Nut" 4 0.25%float None None world_bolt) = Ok tt.
Proof.
  destruct (add_product_get_product "Nut" 4 0.25%float None world_bolt)
    as [Hget Hret]; [vm_compute; reflexivity | vm_compute; reflexivity |].
  split.
  - apply Hget; vm_compute; reflexivity.
  - apply Hret. vm_compute. reflexivity.
Defined.

(** C9, at the identifier 0.  [add_product] is called with the identifier 0
    on the catalog that holds product 7: the call returns, no row has the
    identifier 0, and the new row sits under the rowid the store picked,
    8. *)
Theorem add_product_identifier_zero :
  fst (add_product "Nut" 4 0.25%float None (Some 0) world_bolt) = Ok tt /\
  store (snd (add_product "Nut" 4 0.25%float None (Some 0) world_bolt)) !! 0
    = None /\
  store (snd (add_product "Nut" 4 0.25%float None (Some 0) world_bolt)) !! 8
    = Some (mkProduct "Nut" 4 0.25%float None).
Proof. vm_compute. done. Qed.

(** ** Computations that only run statements *)

Lemma only_executes_ret {A} (a : A) : only_executes (ret a).
Proof.
  intros w r w' [= <- <-]. repeat split. exists []. cbn. by rewrite app_nil_r.
Qed.

Lemma only_executes_lift {A} (r : result A) : only_executes (lift r).
Proof.
  intros w r' w' [= <- <-]. repeat split. exists []. cbn. by rewrite app_nil_r.
Qed.

Lemma only_executes_bind {A B} (m : M A) (k : A -> M B) :
  only_executes m -> (forall a, only_executes (k a)) ->
  only_executes (bind m k).
Proof.
  intros Hm Hk w r w' Hrun. unfold bind in Hrun.
  destruct (m w) as [[a|e] w1] eqn:Hm1.
  - destruct (Hm _ _ _ Hm1) as (Hs1 & Hf1 & Hb1 & stmts1 & Ht1).
    destruct (Hk a _ _ _ Hrun) as (Hs2 & Hf2 & Hb2 & stmts2 & Ht2).
    repeat split; try congruence.
    exists (stmts1 ++ stmts2). by rewrite Ht2, Ht1, fmap_app, app_assoc.
  - injection Hrun as <- <-. exact (Hm _ _ _ Hm1).
Qed.

Lemma only_executes_execute (s : statement) : only_executes (execute s).
Proof.
  intros w r w' Hrun. unfold execute in Hrun.
  unfold bind, emit, get_work, put_work, lift, ret in Hrun. cbn in Hrun.
  assert (Hshape : store w' = store w /\ files w' = files w /\
                   blocked w' = blocked w /\ trace w' = trace w ++ [EvExecute s]).
  { destruct s; cbn in Hrun; try (by injection Hrun as <- <-).
    destruct (insert_with_id _ _ _); by injection Hrun as <- <-. }
  destruct Hshape as (? & ? & ? & ?). repeat split; try done. by exists [s].
Qed.

Lemma only_executes_query_all (i : Z) : only_executes (query_all i).
Proof.
  unfold query_all. apply only_executes_bind; [apply only_executes_execute |].
  intros _ w r w' [= <- <-]. repeat split. exists []. cbn. by rewrite app_nil_r.
Qed.

Lemma only_executes_for_each {A S} (body : A -> S -> M S) (l : list A) :
  (forall x s, only_executes (body x s)) ->
  forall s, only_executes (for_each body l s).
Proof.
  intros Hbody. induction l as [|x l IH]; intros s; cbn.
  - apply only_executes_ret.
  - apply only_executes_bind; [apply Hbody | exact IH].
Qed.

Ltac only_executes_tac :=
  repeat first
    [ apply only_executes_ret
    | apply only_executes_lift
    | apply only_executes_execute
    | apply only_executes_query_all
    | apply only_executes_bind; [| intros ?]
    | match goal with
      | |- only_executes (match ?x with _ => _ end) => destruct x
      end ].

Section Batch.
Context `{Builtins}.

Lemma only_executes_outgoing_row (row : csv_row) (inv : list invoice_item) :
  only_executes (outgoing_row row inv).
Proof. unfold outgoing_row. only_executes_tac. Qed.

Lemma only_executes_incoming_row (row : csv_row) (u : unit) :
  only_executes (incoming_row row u).
Proof. unfold incoming_row. only_executes_tac. Qed.

(** The shape of a run of a batch method that returns: connect, the
    statements of the rows, the move of the file, commit, close. *)
Lemma process_incoming_goods_ok (filename : string) (w w' : world) :
  process_incoming_goods filename w = (Ok tt, w') ->
  exists rows w1 stmts,
    files w !! filename = Some rows /\
    for_each incoming_row rows tt
      (mkWorld (store w) (store w) (trace w ++ [EvConnect]) (files w)
         (blocked w)) = (Ok tt, w1) /\
    (filename ∉ blocked w) /\
    trace w1 = (trace w ++ [EvConnect]) ++ (EvExecute <$> stmts) /\
    w' = mkWorld (work w1) (work w1)
           (trace w1 ++ [EvMove filename "./IncomingGoods/Processed";
                         EvCommit; EvClose])
           (delete filename (files w)) (blocked w).
Proof.
  unfold process_incoming_goods.
  unfold bind at 1. unfold connect_db at 1.
  unfold bind at 1. unfold open_csv at 1. cbn.
  destruct (files w !! filename) as [rows|] eqn:Hf; [| discriminate].
  unfold bind at 1.
  destruct (for_each incoming_row rows tt _) as [[[]|e] w1] eqn:Hloop;
    [| discriminate].
  destruct (only_executes_for_each incoming_row rows
              only_executes_incoming_row tt _ _ _ Hloop)
    as (Hs & Hfl & Hb & stmts & Ht).
  cbn in Hs, Hfl, Hb, Ht.
  unfold bind at 1. unfold shutil_move at 1. cbn beta. rewrite Hfl, Hf, Hb.
  case_bool_decide as Hblk; [discriminate |].
  run. intros [= <-].
  exists rows, w1, stmts. rewrite !app_snoc.
  split_and!; try done. by rewrite Ht, app_snoc.
Qed.

Lemma process_outgoing_goods_ok (filename : string) (w w' : world) :
  process_outgoing_goods filename w = (Ok tt, w') ->
  exists rows lines w1 stmts,
    files w !! filename = Some rows /\
    for_each outgoing_row rows []
      (mkWorld (store w) (store w) (trace w ++ [EvConnect]) (files w)
         (blocked w)) = (Ok lines, w1) /\
    (filename ∉ blocked w) /\
    trace w1 = (trace w ++ [EvConnect]) ++ (EvExecute <$> stmts) /\
    w' = mkWorld (work w1) (work w1)
           (trace w1 ++ [EvMove filename "./OutgoingGoods/Processed";
                         EvCommit; EvClose; EvWriteInvoice lines filename])
           (delete filename (files w)) (blocked w).
Proof.
  unfold process_outgoing_goods.
  unfold bind at 1. unfold connect_db at 1.
  unfold bind at 1. unfold open_csv at 1. cbn.
  destruct (files w !! filename) as [rows|] eqn:Hf; [| discriminate].
  unfold bind at 1.
  destruct (for_each outgoing_row rows [] _) as [[lines|e] w1] eqn:Hloop;
    [| discriminate].
  destruct (only_executes_for_each outgoing_row rows
              only_executes_outgoing_row [] _ _ _ Hloop)
    as (Hs & Hfl & Hb & stmts & Ht).
  cbn in Hs, Hfl, Hb, Ht.
  unfold bind at 1. unfold shutil_move at 1. cbn beta. rewrite Hfl, Hf, Hb.
  case_bool_decide as Hblk; [discriminate |].
  unfold write_invoice. run. intros [= <-].
  exists rows, lines, w1, stmts. rewrite !app_snoc.
  split_and!; try done. by rewrite Ht, app_snoc.
Qed.

(** C4, as the code has it.  In a run of [process_incoming_goods] or
    [process_outgoing_goods] that returns, the effects come in this
    order: all the statements of the rows, then the move of the source
    file to its processed-files location, then the commit (then the close
    of the connection and, for outgoing goods, the invoice). *)
Theorem batch_effect_order (filename : string) (w w' : world) :
  (process_incoming_goods filename w = (Ok tt, w') ->
   exists stmts,
     trace w' =
       trace w ++ [EvConnect] ++ (EvExecute <$> stmts) ++
         [EvMove filename "./IncomingGoods/Processed"; EvCommit; EvClose])
  /\
  (process_outgoing_goods filename w = (Ok tt, w') ->
   exists stmts lines,
     trace w' =
       trace w ++ [EvConnect] ++ (EvExecute <$> stmts) ++
         [EvMove filename "./OutgoingGoods/Processed"; EvCommit; EvClose;
          EvWriteInvoice lines filename]).
Proof.
  split; intros Hrun.
  - apply process_incoming_goods_ok in Hrun
      as (rows & w1 & stmts & _ & _ & _ & Ht & ->).
    exists stmts. cbn. rewrite Ht. by rewrite <- !app_assoc.
  - apply process_outgoing_goods_ok in Hrun
      as (rows & lines & w1 & stmts & _ & _ & _ & Ht & ->).
    exists stmts, lines. cbn. rewrite Ht. by rewrite <- !app_assoc.
Qed.

End Batch.

(** ** Merging invoice lines *)

Lemma int_times_float_ok (n : Z) (x y : float) :
  int_times_float n x = Ok y -> y = PrimFloat.mul (float_of_Z n) x.
Proof.
  unfold int_times_float, float_of_int.
  destruct (PrimFloat.is_infinity (float_of_Z n)); [discriminate |].
  by intros [= <-].
Qed.

Lemma sum_Z_snoc (l : list Z) (x : Z) : sum_Z (l ++ [x]) = sum_Z l + x.
Proof. unfold sum_Z. induction l as [|y l IH]; cbn; lia. Qed.

Lemma sum_float_snoc (l : list float) (x : float) :
  l <> [] -> sum_float (l ++ [x]) = PrimFloat.add (sum_float l) x.
Proof.
  destruct l as [|y l]; [done |]. intros _. cbn. by rewrite fold_left_app.
Qed.

Lemma rows_for_snoc (i : Z) (es : list entry) (e : entry) :
  rows_for i (es ++ [e]) =
    rows_for i es ++ (if decide (e_id e = i) then [e] else []).
Proof.
  unfold rows_for. by rewrite filter_app.
Qed.

Lemma merged_nil : merged [] [].
Proof.
  split; [constructor |]. split.
  - intros item Hin. by apply elem_of_nil in Hin.
  - intros e Hin. by apply elem_of_nil in Hin.
Qed.

(** One pass through the block under [# Add to invoice data] keeps the
    lines merged. *)
Lemma merged_step (es : list entry) (lines lines' : list invoice_item)
    (e : entry) :
  merged es lines ->
  add_to_invoice (e_id e) (e_name e) (e_qty e) (e_price e) lines = Ok lines' ->
  merged (es ++ [e]) lines'.
Proof.
  intros (Hnd & Hsum & Hall) Hadd. unfold add_to_invoice in Hadd.
  destruct (list_find _ lines) as [[i item]|] eqn:Hfind.
  - apply list_find_Some in Hfind as (Hi & Hid & _).
    destruct (int_times_float _ _) as [x|] eqn:Hx; [| discriminate].
    injection Hadd as <-. apply int_times_float_ok in Hx as ->.
    set (item' := mkItem _ _ _ _ _).
    assert (Hids : Product_ID <$> <[i := item']> lines = Product_ID <$> lines).
    { rewrite list_fmap_insert. apply list_insert_id.
      by rewrite list_lookup_fmap, Hi. }
    assert (Hitem : item ∈ lines) by (by eapply list_elem_of_lookup_2).
    split; [by rewrite Hids |]. split.
    + intros it Hit. apply list_elem_of_lookup in Hit as [j Hj].
      destruct (decide (j = i)) as [-> | Hne].
      * rewrite list_lookup_insert_eq in Hj by (by eapply lookup_lt_Some).
        injection Hj as <-. cbn.
        destruct (Hsum item Hitem) as (Hrows & Hq & Ht).
        rewrite rows_for_snoc. rewrite decide_True by done.
        rewrite !fmap_app. cbn.
        rewrite sum_Z_snoc, sum_float_snoc.
        -- split; [by destruct (rows_for _ es) |]. by rewrite Hq, Ht.
        -- by destruct (rows_for _ es).
      * rewrite list_lookup_insert_ne in Hj by done.
        assert (Hne' : e_id e <> Product_ID it).
        { intros Heq. apply Hne.
          apply (NoDup_lookup (Product_ID <$> lines) j i (Product_ID it));
            [done | by rewrite list_lookup_fmap, Hj |].
          rewrite list_lookup_fmap, Hi. cbn. congruence. }
        rewrite rows_for_snoc. rewrite decide_False by done.
        rewrite app_nil_r. apply Hsum. by eapply list_elem_of_lookup_2.
    + intros e' He'.
      assert (Hid' : e_id e' ∈ Product_ID <$> lines).
      { apply elem_of_app in He' as [He' | He'].
        - destruct (Hall e' He') as (it & Hit & <-).
          by apply list_elem_of_fmap_2.
        - apply list_elem_of_singleton in He' as ->.
          rewrite <- Hid. by apply list_elem_of_fmap_2. }
      rewrite <- Hids in Hid'.
      apply list_elem_of_fmap in Hid' as (it & Heq & Hit). eauto.
  - apply list_find_None in Hfind.
    destruct (int_times_float _ _) as [x|] eqn:Hx; [| discriminate].
    injection Hadd as <-. apply int_times_float_ok in Hx as ->.
    assert (Hnew : rows_for (e_id e) es = []).
    { destruct (rows_for (e_id e) es) as [|e' r] eqn:Hr; [done |].
      assert (He' : e' ∈ rows_for (e_id e) es) by (rewrite Hr; left).
      apply list_elem_of_filter in He' as [Heq He'].
      destruct (Hall e' He') as (it & Hit & Hid).
      rewrite Forall_forall in Hfind. destruct (Hfind it Hit). congruence. }
    split; [| split].
    + rewrite fmap_app. cbn. apply NoDup_app. split; [done |].
      split; [| apply NoDup_singleton].
      intros i Hi Hi'. apply list_elem_of_singleton in Hi' as ->.
      apply list_elem_of_fmap in Hi as (it & Heq & Hit).
      rewrite Forall_forall in Hfind. destruct (Hfind it Hit). congruence.
    + intros it Hit. apply elem_of_app in Hit as [Hit | Hit].
      * assert (Hne' : e_id e <> Product_ID it).
        { rewrite Forall_forall in Hfind. intros Heq.
          destruct (Hfind it Hit). congruence. }
        rewrite rows_for_snoc. rewrite decide_False by done.
        rewrite app_nil_r. by apply Hsum.
      * apply list_elem_of_singleton in Hit as ->. cbn.
        rewrite rows_for_snoc, Hnew. rewrite decide_True by done. cbn.
        split; [done |]. split; [unfold sum_Z; cbn; lia | done].
    + intros e' He'. apply elem_of_app in He' as [He' | He'].
      * destruct (Hall e' He') as (it & Hit & Hid).
        exists it. split; [| done]. apply elem_of_app. by left.
      * apply list_elem_of_singleton in He' as ->.
        eexists. split; [apply elem_of_app; right; left |]. done.
Qed.

(** ** The rows of a batch *)

Section Rows.
Context `{Builtins}.

Lemma outgoing_row_entry (row : csv_row) (inv : list invoice_item)
    (w : world) (e : entry) :
  outgoing_entry row = Some e ->
  outgoing_row row inv w =
    (add_to_invoice (e_id e) (e_name e) (e_qty e) (e_price e) inv,
     match work w !! e_id e with
     | Some p =>
         mkWorld (store w)
           (<[e_id e := set_quantity (floor_sub (quantity p) e) p]> (work w))
           (trace w ++
              [EvExecute (SelectAll (e_id e));
               EvExecute (UpdateSet (floor_sub (quantity p) e) (e_id e))])
           (files w) (blocked w)
     | None =>
         mkWorld (store w) (work w)
           (trace w ++ [EvExecute (SelectAll (e_id e))])
           (files w) (blocked w)
     end).
Proof.
  intros He. unfold outgoing_entry in He.
  destruct (truthy_str (CODECONTENT row)) as [s|] eqn:Hs; cbn in He; [| discriminate He].
  destruct (QUANTITY row) as [qs|] eqn:Hqs; cbn in He; [| discriminate He].
  destruct (int_of_str qs) as [q|] eqn:Hq; cbn in He; [| discriminate He].
  destruct (split_comma_space s !! 0%nat) as [s0|] eqn:H0; cbn in He; [| discriminate He].
  destruct (int_of_str s0) as [i|] eqn:Hi; cbn in He; [| discriminate He].
  destruct (split_comma_space s !! 1%nat) as [name|] eqn:H1; cbn in He; [| discriminate He].
  destruct (split_comma_space s !! 2%nat) as [s2|] eqn:H2; cbn in He; [| discriminate He].
  destruct (float_of_str s2) as [pr|] eqn:Hpr; cbn in He; [| discriminate He].
  injection He as <-. cbn.
  unfold outgoing_row, py_int, py_float, index.
  rewrite Hs, Hqs, Hq. run. rewrite H0. cbn. rewrite Hi. cbn.
  rewrite H1. cbn. rewrite H2. cbn. rewrite Hpr. cbn.
  unfold select_all.
  destruct (work w !! i) as [p|] eqn:Hp; cbn.
  - unfold update_set, floor_sub. cbn.
    rewrite (alter_found _ _ _ p) by done. by rewrite !app_snoc.
  - done.
Qed.

Lemma outgoing_row_none (row : csv_row) (inv inv' : list invoice_item)
    (w w' : world) :
  outgoing_entry row = None ->
  outgoing_row row inv w = (Ok inv', w') ->
  inv' = inv /\ w' = w.
Proof.
  unfold outgoing_entry, outgoing_row, py_int, py_float, index, bind, lift,
    ret.
  destruct (truthy_str (CODECONTENT row)) as [s|]; cbn.
  - destruct (QUANTITY row) as [qs|]; cbn; [| discriminate].
    destruct (int_of_str qs) as [q|]; cbn; [| discriminate].
    destruct (split_comma_space s !! 0%nat) as [s0|]; cbn; [| discriminate].
    destruct (int_of_str s0) as [i|]; cbn; [| discriminate].
    destruct (split_comma_space s !! 1%nat) as [name|]; cbn;
      [| discriminate].
    destruct (split_comma_space s !! 2%nat) as [s2|]; cbn; [| discriminate].
    destruct (float_of_str s2) as [pr|]; cbn; discriminate.
  - intros _. destruct (QUANTITY row) as [qs|]; cbn; [| discriminate].
    destruct (int_of_str qs) as [q|]; cbn; [| discriminate].
    by intros [= <- <-].
Qed.

(** The loop of [process_outgoing_goods] keeps the lines merged. *)
Lemma for_each_outgoing_merged (rows : list csv_row) :
  forall (es : list entry) (inv inv' : list invoice_item) (w w' : world),
    merged es inv ->
    for_each outgoing_row rows inv w = (Ok inv', w') ->
    merged (es ++ omap outgoing_entry rows) inv'.
Proof.
  induction rows as [|row rows IH]; intros es inv inv' w w' Hm Hrun; cbn.
  - cbn in Hrun. injection Hrun as <- <-. by rewrite app_nil_r.
  - cbn in Hrun. unfold bind in Hrun.
    destruct (outgoing_row row inv w) as [[inv1|err] w1] eqn:Hrow;
      [| discriminate].
    destruct (outgoing_entry row) as [e|] eqn:He.
    + rewrite (outgoing_row_entry _ _ _ e He) in Hrow.
      injection Hrow as Hadd _.
      pose proof (merged_step es inv inv1 e Hm Hadd) as Hm1.
      specialize (IH _ _ _ _ _ Hm1 Hrun).
      by rewrite <- app_assoc in IH.
    + destruct (outgoing_row_none _ _ _ _ _ He Hrow) as [-> ->].
      by eapply IH.
Qed.


Lemma rows_for_cons (i : Z) (e : entry) (es : list entry) :
  rows_for i (e :: es) =
    if decide (e_id e = i) then e :: rows_for i es else rows_for i es.
Proof. unfold rows_for. by rewrite filter_cons. Qed.

(** The stock the open connection sees after the loop of
    [process_outgoing_goods]: each product has gone through the rows that
    name it, in file order. *)
Lemma for_each_outgoing_work (rows : list csv_row) :
  forall (inv inv' : list invoice_item) (w w' : world) (i : Z),
    for_each outgoing_row rows inv w = (Ok inv', w') ->
    work w' !! i =
      (fun p =>
         set_quantity
           (fold_left floor_sub (rows_for i (omap outgoing_entry rows))
              (quantity p)) p) <$> work w !! i.
Proof.
  induction rows as [|row rows IH]; intros inv inv' w w' i Hrun.
  - cbn in Hrun. injection Hrun as <- <-.
    destruct (work w !! i) as [[]|]; done.
  - cbn in Hrun. unfold bind in Hrun.
    destruct (outgoing_row row inv w) as [[inv1|err] w1] eqn:Hrow;
      [| discriminate].
    destruct (outgoing_entry row) as [e|] eqn:He.
    + replace (omap outgoing_entry (row :: rows))
        with (e :: omap outgoing_entry rows) by (cbn; by rewrite He).
      rewrite (IH _ _ _ _ i Hrun).
      rewrite (outgoing_row_entry _ _ _ e He) in Hrow.
      injection Hrow as _ <-. rewrite rows_for_cons.
      destruct (work w !! e_id e) as [p|] eqn:Hp; cbn.
      * rewrite lookup_insert. case_decide as Hi; subst; [| done].
        by rewrite Hp.
      * case_decide as Hi; subst; [by rewrite Hp | done].
    + replace (omap outgoing_entry (row :: rows))
        with (omap outgoing_entry rows) by (cbn; by rewrite He).
      rewrite (IH _ _ _ _ i Hrun).
      by destruct (outgoing_row_none _ _ _ _ _ He Hrow) as [_ ->].
Qed.

Lemma fold_floor_sub_nonneg (es : list entry) (q : Z) :
  es <> [] -> 0 <= fold_left floor_sub es q.
Proof.
  induction es as [|e es IH] using rev_ind; [done |]. intros _.
  rewrite fold_left_app. cbn. unfold floor_sub at 1. lia.
Qed.


Lemma incoming_row_existing (row : csv_row) (w : world) (i n : Z)
    (p : product) :
  incoming_id row = Some i -> incoming_quantity row = Some n ->
  work w !! i = Some p ->
  incoming_row row tt w =
    (Ok tt,
     mkWorld (store w) (<[i := set_quantity (quantity p + n) p]> (work w))
       (trace w ++
          [EvExecute (SelectAll i); EvExecute (UpdateSet (quantity p + n) i)])
       (files w) (blocked w)).
Proof.
  intros Hid Hn Hp. unfold incoming_id in Hid. unfold incoming_quantity in Hn.
  destruct (truthy_str (CODECONTENT row)) as [s|] eqn:Hs; cbn in Hid;
    [| discriminate Hid].
  destruct (split_comma_space s !! 0%nat) as [s0|] eqn:H0; cbn in Hid;
    [| discriminate Hid].
  destruct (QUANTITY row) as [qs|] eqn:Hqs; cbn in Hn; [| discriminate Hn].
  unfold incoming_row, py_int, index.
  rewrite Hs, Hqs. run. rewrite H0. cbn. rewrite Hid. cbn.
  unfold select_all. rewrite Hp. cbn. rewrite Hn. cbn.
  unfold update_set. rewrite (alter_found _ _ _ p) by done.
  by rewrite !app_snoc.
Qed.

Lemma incoming_row_new (row : csv_row) (w : world) (i : Z) (r : product) :
  incoming_id row = Some i -> incoming_product row = Some r ->
  work w !! i = None ->
  incoming_row row tt w =
    (Ok tt,
     mkWorld (store w) (<[i := r]> (work w))
       (trace w ++
          [EvExecute (SelectAll i);
           EvExecute (InsertWithId i (product_name r) (quantity r)
                        (price r) (description r))])
       (files w) (blocked w)).
Proof.
  intros Hid Hr Hp. unfold incoming_id in Hid.
  unfold incoming_product, incoming_quantity in Hr.
  destruct (truthy_str (CODECONTENT row)) as [s|] eqn:Hs; cbn in Hid, Hr;
    [| discriminate Hid].
  destruct (split_comma_space s !! 0%nat) as [s0|] eqn:H0; cbn in Hid;
    [| discriminate Hid].
  destruct (split_comma_space s !! 1%nat) as [name|] eqn:H1; cbn in Hr;
    [| discriminate Hr].
  destruct (QUANTITY row) as [qs|] eqn:Hqs; cbn in Hr; [| discriminate Hr].
  destruct (int_of_str qs) as [n|] eqn:Hn; cbn in Hr; [| discriminate Hr].
  destruct (split_comma_space s !! 2%nat) as [s2|] eqn:H2; cbn in Hr;
    [| discriminate Hr].
  destruct (float_of_str s2) as [pr|] eqn:Hpr; cbn in Hr;
    [| discriminate Hr].
  destruct (split_comma_space s !! 3%nat) as [d|] eqn:H3; cbn in Hr;
    [| discriminate Hr].
  injection Hr as <-. cbn.
  unfold incoming_row, py_int, py_float, index.
  rewrite Hs, Hqs. run. rewrite H0. cbn. rewrite Hid. cbn.
  unfold select_all. rewrite Hp. cbn. rewrite H1. cbn. rewrite Hn. cbn.
  rewrite H2. cbn. rewrite Hpr. cbn. rewrite H3. cbn.
  unfold insert_with_id. rewrite Hp. cbn. by rewrite !app_snoc.
Qed.

End Rows.

(** ** Outgoing goods: the floor at zero *)

(** C3.  A row of [process_outgoing_goods] whose product exists in the
    catalog leaves the product with the quantity
    [max (old quantity - row quantity, 0)], which is never negative, also
    when the row asks for more than the stock; the other columns are as
    before; the identifier, the stored quantity and the new one are 64-bit
    integers, or the sqlite3 module would refuse to bind them.  For a whole
    batch that
    returns, the committed quantity of every product of the catalog is its
    old quantity taken through the rows that name it, one floor-at-zero
    subtraction per row, and it is not negative when a row names it. *)
Theorem outgoing_floor_at_zero (B : Builtins) :
  (forall row inv w e p,
     outgoing_entry row = Some e -> work w !! e_id e = Some p ->
     int64 (e_id e) = true -> int64 (quantity p) = true ->
     int64 (Z.max (quantity p - e_qty e) 0) = true ->
     exists p',
       work (snd (outgoing_row row inv w)) !! e_id e = Some p' /\
       quantity p' = Z.max (quantity p - e_qty e) 0 /\
       0 <= quantity p' /\
       product_name p' = product_name p /\ price p' = price p /\
       description p' = description p) /\
  (forall filename rows w w' i p,
     files w !! filename = Some rows ->
     process_outgoing_goods filename w = (Ok tt, w') ->
     store w !! i = Some p ->
     exists p',
       store w' !! i = Some p' /\
       quantity p' =
         fold_left floor_sub (rows_for i (omap outgoing_entry rows))
           (quantity p) /\
       (rows_for i (omap outgoing_entry rows) <> [] -> 0 <= quantity p')).
Proof.
  split.
  - intros row inv w e p He Hp _ _ _.
    rewrite (outgoing_row_entry _ _ _ e He), Hp. cbn.
    rewrite lookup_insert_eq. eexists. split; [done |]. cbn.
    unfold floor_sub. repeat split; lia.
  - intros filename rows w w' i p Hf Hrun Hp.
    apply process_outgoing_goods_ok in Hrun
      as (rows' & lines & w1 & stmts & Hf' & Hloop & _ & _ & ->).
    assert (rows' = rows) as -> by congruence.
    cbn. rewrite (for_each_outgoing_work _ _ _ _ _ i Hloop). cbn.
    rewrite Hp. cbn. eexists. split; [done |]. cbn.
    split; [done |]. apply fold_floor_sub_nonneg.
Qed.

Lemma outgoing_floor_at_zero_witness :
  (exists p',
     work (snd (@outgoing_row decimal_builtins
                  (mkRow (Some "7, Bolt, 0.50"%string) (Some "130"%string))
                  [] world_bolt)) !! 7 = Some p' /\
     quantity p' = Z.max (quantity bolt - 130) 0 /\
     0 <= quantity p' /\
     product_name p' = product_name bolt /\ price p' = price bolt /\
     description p' = description bolt) /\
  (exists p',
     store (snd (@process_outgoing_goods decimal_builtins "out.csv"
                   world_bolt)) !! 7 = Some p' /\
     quantity p' =
       fold_left floor_sub
         (rows_for 7 (omap (@outgoing_entry decimal_builtins) outgoing_batch))
         (quantity bolt) /\
     (rows_for 7 (omap (@outgoing_entry decimal_builtins) outgoing_batch)
        <> [] -> 0 <= quantity p')).
Proof.
  destruct (outgoing_floor_at_zero decimal_builtins) as [Hrow Hbatch].
  split.
  - apply (Hrow (mkRow (Some "7, Bolt, 0.50"%string) (Some "130"%string))
             [] world_bolt (mkEntry 7 "Bolt" 0.5%float 130) bolt);
      vm_compute; reflexivity.
  - apply (Hbatch "out.csv"%string outgoing_batch world_bolt
             (snd (@process_outgoing_goods decimal_builtins "out.csv"
                     world_bolt)) 7 bolt); vm_compute; reflexivity.
Defined.

(** ** Outgoing goods: the invoice *)

Lemma add_to_invoice_has_line (i : Z) (name : string) (q : Z) (pr : float)
    (inv inv' : list invoice_item) :
  add_to_invoice i name q pr inv = Ok inv' ->
  exists item, item ∈ inv' /\ Product_ID item = i.
Proof.
  unfold add_to_invoice.
  destruct (list_find _ inv) as [[k item]|] eqn:Hfind.
  - apply list_find_Some in Hfind as (Hk & Hid & _).
    destruct (int_times_float q pr) as [x|]; [| discriminate].
    intros [= <-]. eexists. split.
    + apply list_elem_of_insert. by eapply lookup_lt_Some.
    + done.
  - destruct (int_times_float q pr) as [x|]; [| discriminate].
    intros [= <-]. eexists. split; [apply elem_of_app; right; left | done].
Qed.

(** C5.  When [process_outgoing_goods] returns, the invoice it emits merges
    the rows of the batch file: no two lines have the same product
    identifier; every row with content has the line of its product; and the
    quantity of a line is the sum of the quantities of the rows of its
    product, its total price the sum, accumulated in file order, of their
    quantity times unit price.  Two rows for product 7 at unit price 0.50
    with the quantities 30 and 90 give the single line of quantity 120 and
    total price 60.00, and leave the stock of product 7, which was 100, at
    0. *)
Theorem outgoing_lines_merged :
  (forall (B : Builtins) filename rows w w',
     files w !! filename = Some rows ->
     process_outgoing_goods filename w = (Ok tt, w') ->
     exists lines,
       last (trace w') = Some (EvWriteInvoice lines filename) /\
       merged (omap outgoing_entry rows) lines) /\
  last (trace (snd (@process_outgoing_goods decimal_builtins "out.csv"
                      world_bolt))) =
    Some (EvWriteInvoice [mkItem 7 "Bolt" 120 0.5%float 60%float] "out.csv") /\
  store (snd (@process_outgoing_goods decimal_builtins "out.csv" world_bolt))
    = {[7 := set_quantity 0 bolt]}.
Proof.
  split; [| split; vm_compute; reflexivity].
  intros B filename rows w w' Hf Hrun.
  apply process_outgoing_goods_ok in Hrun
    as (rows' & lines & w1 & stmts & Hf' & Hloop & _ & _ & ->).
  assert (rows' = rows) as -> by congruence.
  exists lines. cbn. split.
  - by rewrite last_app.
  - apply (for_each_outgoing_merged rows [] [] lines _ w1 merged_nil Hloop).
Qed.

Lemma outgoing_lines_merged_witness :
  exists lines,
    last (trace (snd (@process_outgoing_goods decimal_builtins "out.csv"
                        world_bolt))) =
      Some (EvWriteInvoice lines "out.csv") /\
    merged (omap (@outgoing_entry decimal_builtins) outgoing_batch) lines.
Proof.
  destruct outgoing_lines_merged as [Hgen _].
  apply (Hgen decimal_builtins "out.csv"%string outgoing_batch world_bolt);
    vm_compute; reflexivity.
Defined.

(** C10.  A row of [process_outgoing_goods] with content, for a product the
    catalog does not have, changes no catalog state, and still goes through
    the block under [# Add to invoice data]: whenever the row returns, the
    invoice has a line for its product, and the row returns as soon as its
    quantity converts to a float.  The identifier is a 64-bit integer, or
    the sqlite3 module would refuse to bind it.  So the emitted invoice can
    hold lines for products that never were in the store: on the empty
    catalog, the row for product 9 gives an invoice with the line of
    product 9, and the catalog is empty afterwards. *)
Theorem unknown_product_is_invoiced :
  (forall (B : Builtins) row inv w e,
     outgoing_entry row = Some e -> work w !! e_id e = None ->
     int64 (e_id e) = true ->
     store (snd (outgoing_row row inv w)) = store w /\
     work (snd (outgoing_row row inv w)) = work w /\
     fst (outgoing_row row inv w) =
       add_to_invoice (e_id e) (e_name e) (e_qty e) (e_price e) inv /\
     (forall inv', fst (outgoing_row row inv w) = Ok inv' ->
        exists item, item ∈ inv' /\ Product_ID item = e_id e) /\
     (PrimFloat.is_infinity (float_of_Z (e_qty e)) = false ->
        exists inv', fst (outgoing_row row inv w) = Ok inv')) /\
  last (trace (snd (@process_outgoing_goods decimal_builtins "out.csv"
                      world_unknown))) =
    Some (EvWriteInvoice [mkItem 9 "Nut" 4 0.25%float 1%float] "out.csv") /\
  store world_unknown = ∅ /\
  store (snd (@process_outgoing_goods decimal_builtins "out.csv"
                world_unknown)) = ∅.
Proof.
  split; [| split; [| split]; vm_compute; reflexivity].
  intros B row inv w e He Hw _.
  rewrite (outgoing_row_entry _ _ _ e He), Hw. cbn.
  split; [done |]. split; [done |]. split; [done |]. split.
  - intros inv' Hadd. by eapply add_to_invoice_has_line.
  - intros Hfin. unfold add_to_invoice, int_times_float, float_of_int.
    cbv zeta.
    change (PrimFloat.is_infinity (float_of_Z (e_qty e)) = false) in Hfin.
    rewrite Hfin. destruct (list_find _ inv) as [[k item]|]; eauto.
Qed.

Lemma unknown_product_is_invoiced_witness :
  store (snd (@outgoing_row decimal_builtins
                (mkRow (Some "9, Nut, 0.25"%string) (Some "4"%string))
                [] world_unknown)) = store world_unknown /\
  exists inv',
    fst (@outgoing_row decimal_builtins
           (mkRow (Some "9, Nut, 0.25"%string) (Some "4"%string))
           [] world_unknown) = Ok inv'.
Proof.
  destruct unknown_product_is_invoiced as [Hgen _].
  destruct (Hgen decimal_builtins
              (mkRow (Some "9, Nut, 0.25"%string) (Some "4"%string))
              [] world_unknown (mkEntry 9 "Nut" 0.25%float 4))
    as (Hs & _ & _ & _ & Hret);
    [vm_compute; reflexivity | vm_compute; reflexivity
    | vm_compute; reflexivity |].
  split; [exact Hs | apply Hret; vm_compute; reflexivity].
Defined.

(** ** Incoming goods *)

(** C6.  A row of [process_incoming_goods] whose identifier exists in the
    catalog returns and changes the row of that product only, and there the
    quantity only, which grows by the quantity of the row; name, price and
    description are as before.  A row whose identifier does not exist
    returns and inserts, under that identifier, the record made of the
    name, quantity, price and description of the row.  The identifier and
    the quantities, the one in the store and the one that is stored, are
    64-bit integers, and the price of a new record is one that a REAL
    column gives back as it is (not NaN, not the negative zero).  On the
    empty catalog, the row ["7, Bolt, 0.50, steel bolt"] with quantity 100
    creates product 7 with quantity 100, price 0.50 and description
    "steel bolt". *)
Theorem incoming_row_effect :
  (forall (B : Builtins) row w i n p,
     incoming_id row = Some i -> incoming_quantity row = Some n ->
     work w !! i = Some p ->
     int64 i = true -> int64 (quantity p) = true ->
     int64 (quantity p + n) = true ->
     fst (incoming_row row tt w) = Ok tt /\
     exists p',
       work (snd (incoming_row row tt w)) = <[i := p']> (work w) /\
       quantity p' = quantity p + n /\
       product_name p' = product_name p /\ price p' = price p /\
       description p' = description p) /\
  (forall (B : Builtins) row w s s0 name s2 d rest qs i n pr,
     CODECONTENT row = Some s -> s <> EmptyString ->
     split_comma_space s = s0 :: name :: s2 :: d :: rest ->
     int_of_str s0 = Some i -> float_of_str s2 = Some pr ->
     QUANTITY row = Some qs -> int_of_str qs = Some n ->
     work w !! i = None ->
     int64 i = true -> int64 n = true -> stored_as_is pr = true ->
     fst (incoming_row row tt w) = Ok tt /\
     work (snd (incoming_row row tt w)) =
       <[i := mkProduct name n pr (Some d)]> (work w)) /\
  store (snd (@process_incoming_goods decimal_builtins "in.csv" world_empty))
    = {[7 := mkProduct "Bolt" 100 0.5%float (Some "steel bolt"%string)]}.
Proof.
  split; [| split; [| vm_compute; reflexivity]].
  - intros B row w i n p Hid Hn Hp _ _ _.
    rewrite (incoming_row_existing row w i n p) by done. cbn.
    split; [done |]. eexists. split; [done |]. done.
  - intros B row w s s0 name s2 d rest qs i n pr Hc Hs Hsplit Hi Hpr Hq Hn Hw
      _ _ _.
    assert (Ht : truthy_str (CODECONTENT row) = Some s).
    { rewrite Hc. by destruct s. }
    rewrite (incoming_row_new row w i (mkProduct name n pr (Some d)));
      [done | | | done].
    + unfold incoming_id. rewrite Ht. cbn. rewrite Hsplit. cbn. done.
    + unfold incoming_product, incoming_quantity. rewrite Ht. cbn.
      rewrite Hsplit. cbn. rewrite Hq. cbn. rewrite Hn. cbn. rewrite Hpr. done.
Qed.

Lemma incoming_row_effect_witness :
  (fst (@incoming_row decimal_builtins
          (mkRow (Some "7, Bolt, 0.75, zinc"%string) (Some "20"%string))
          tt world_bolt) = Ok tt /\
   exists p',
     work (snd (@incoming_row decimal_builtins
                  (mkRow (Some "7, Bolt, 0.75, zinc"%string)
                     (Some "20"%string)) tt world_bolt))
       = <[7 := p']> (work world_bolt) /\
     quantity p' = quantity bolt + 20 /\
     product_name p' = product_name bolt /\ price p' = price bolt /\
     description p' = description bolt) /\
  (fst (@incoming_row decimal_builtins
          (mkRow (Some "7, Bolt, 0.50, steel bolt"%string)
             (Some "100"%string)) tt world_empty) = Ok tt /\
   work (snd (@incoming_row decimal_builtins
                (mkRow (Some "7, Bolt, 0.50, steel bolt"%string)
                   (Some "100"%string)) tt world_empty))
     = <[7 := mkProduct "Bolt" 100 0.5%float (Some "steel bolt"%string)]>
         (work world_empty)).
Proof.
  destruct incoming_row_effect as (Hold & Hnew & _).
  split.
  - apply (Hold decimal_builtins
             (mkRow (Some "7, Bolt, 0.75, zinc"%string) (Some "20"%string))
             world_bolt 7 20 bolt); vm_compute; reflexivity.
  - apply (Hnew decimal_builtins
             (mkRow (Some "7, Bolt, 0.50, steel bolt"%string)
                (Some "100"%string))
             world_empty "7, Bolt, 0.50, steel bolt"%string "7"%string
             "Bolt"%string "0.50"%string "steel bolt"%string []
             "100"%string 7 100 0.5%float);
      try (vm_compute; reflexivity). discriminate.
Defined.

(** ** The order of move and commit *)

(** C4, as stated, fails.  In the run of [process_incoming_goods] on the
    one-row batch and in the run of [process_outgoing_goods] on the two-row
    batch, both of which return, the file is moved before anything is
    committed. *)
Lemma move_is_before_commit :
  ~ moved_after_commit
      (trace (snd (@process_incoming_goods decimal_builtins "in.csv"
                     world_empty))) /\
  ~ moved_after_commit
      (trace (snd (@process_outgoing_goods decimal_builtins "out.csv"
                     world_bolt))).
Proof.
  split; intros Hm.
  - destruct (Hm 3%nat "in.csv"%string "./IncomingGoods/Processed"%string)
      as (j & Hj & Hc); [vm_compute; reflexivity |].
    destruct j as [|[|[|j]]]; [vm_compute in Hc; discriminate.. | lia].
  - destruct (Hm 5%nat "out.csv"%string "./OutgoingGoods/Processed"%string)
      as (j & Hj & Hc); [vm_compute; reflexivity |].
    destruct j as [|[|[|[|[|j]]]]]; [vm_compute in Hc; discriminate.. | lia].
Qed.

Lemma batch_effect_order_witness :
  (exists stmts,
     trace (snd (@process_incoming_goods decimal_builtins "in.csv"
                   world_empty)) =
       trace world_empty ++ [EvConnect] ++ (EvExecute <$> stmts) ++
         [EvMove "in.csv" "./IncomingGoods/Processed"; EvCommit; EvClose]) /\
  (exists stmts lines,
     trace (snd (@process_outgoing_goods decimal_builtins "out.csv"
                   world_bolt)) =
       trace world_bolt ++ [EvConnect] ++ (EvExecute <$> stmts) ++
         [EvMove "out.csv" "./OutgoingGoods/Processed"; EvCommit; EvClose;
          EvWriteInvoice lines "out.csv"]).
Proof.
  split.
  - destruct (@batch_effect_order decimal_builtins "in.csv"%string world_empty
                (snd (@process_incoming_goods decimal_builtins "in.csv"
                        world_empty))) as [Hin _].
    apply Hin. vm_compute. reflexivity.
  - destruct (@batch_effect_order decimal_builtins "out.csv"%string world_bolt
                (snd (@process_outgoing_goods decimal_builtins "out.csv"
                        world_bolt))) as [_ Hout].
    apply Hout. vm_compute. reflexivity.
Defined.

(** ** The identifier 0 in the two insertion paths *)

(** [process_incoming_goods] inserts a row under the identifier 0 when the
    batch names it, where [add_product] with the identifier 0 lets the
    store pick the rowid. *)
Lemma incoming_row_identifier_zero :
  work (snd (@incoming_row decimal_builtins
               (mkRow (Some "0, Nut, 0.25, hex nut"%string)
                  (Some "4"%string)) tt world_bolt)) !! 0 =
    Some (mkProduct "Nut" 4 0.25%float (Some "hex nut"%string)).
Proof. vm_compute. reflexivity. Qed.

(** * Further properties of the catalog operations *)

Lemma update_quantity_run (i q : Z) (w : world) :
  update_quantity i q w =
    (Ok tt,
     mkWorld (update_set q i (store w)) (update_set q i (store w))
       (trace w ++ [EvConnect; EvExecute (UpdateSet q i); EvCommit; EvClose])
       (files w) (blocked w)).
Proof. unfold update_quantity. run. by rewrite !app_snoc. Qed.

Lemma update_product_run (i : Z) (name : string) (q : Z) (pr : float)
    (d : option string) (w : world) :
  update_product i name q pr d w =
    (Ok tt,
     mkWorld (update_row (mkProduct name q pr d) i (store w))
       (update_row (mkProduct name q pr d) i (store w))
       (trace w ++ [EvConnect; EvCommit; EvClose]) (files w) (blocked w)).
Proof. unfold update_product, modify_work. run. by rewrite !app_snoc. Qed.

Lemma delete_product_run (i : Z) (w : world) :
  delete_product i w =
    (Ok tt,
     mkWorld (delete i (store w)) (delete i (store w))
       (trace w ++ [EvConnect; EvCommit; EvClose]) (files w) (blocked w)).
Proof. unfold delete_product, modify_work, delete_row. run. by rewrite !app_snoc. Qed.

Lemma set_quantity_same (p : product) : set_quantity (quantity p) p = p.
Proof. by destruct p. Qed.

(** X1.  [add_product] with an explicit identifier other than 0 inserts the
    row under that identifier when it is free, and leaves every other row
    as it was; when the identifier is in use the INSERT fails with
    [IntegrityError] and the store is unchanged.  The identifier and the
    quantity are 64-bit integers and the price is one that a REAL column
    gives back as it is (not NaN, not the negative zero). *)
Theorem add_product_explicit_id (name : string) (q : Z) (pr : float)
    (d : option string) (i : Z) (w : world) :
  i <> 0 -> int64 i = true -> int64 q = true -> stored_as_is pr = true ->
  (store w !! i = None ->
     fst (add_product name q pr d (Some i) w) = Ok tt /\
     store (snd (add_product name q pr d (Some i) w)) =
       <[i := mkProduct name q pr d]> (store w)) /\
  (is_Some (store w !! i) ->
     fst (add_product name q pr d (Some i) w) = Raise IntegrityError /\
     store (snd (add_product name q pr d (Some i) w)) = store w).
Proof.
  intros Hi _ _ _.
  assert (Ht : truthy_id (Some i) = Some i).
  { cbn. destruct (Z.eqb_spec i 0); [done | done]. }
  split.
  - intros Hfree. by rewrite (add_product_fresh _ _ _ _ _ i).
  - intros [p Hp]. by rewrite (add_product_collision _ _ _ _ _ i p).
Qed.

Lemma add_product_explicit_id_witness :
  (fst (add_product "Nut" 4 0.25%float None (Some 9) world_bolt) = Ok tt /\
   store (snd (add_product "Nut" 4 0.25%float None (Some 9) world_bolt)) =
     <[9 := mkProduct "Nut" 4 0.25%float None]> (store world_bolt)) /\
  (fst (add_product "Nut" 4 0.25%float None (Some 7) world_bolt)
     = Raise IntegrityError /\
   store (snd (add_product "Nut" 4 0.25%float None (Some 7) world_bolt))
     = store world_bolt).
Proof.
  destruct (add_product_explicit_id "Nut" 4 0.25%float None 9 world_bolt)
    as [Hfree _]; [lia | vm_compute; reflexivity.. |].
  destruct (add_product_explicit_id "Nut" 4 0.25%float None 7 world_bolt)
    as [_ Hused]; [lia | vm_compute; reflexivity.. |].
  split; [apply Hfree; vm_compute; reflexivity |].
  apply Hused. exists bolt. vm_compute. reflexivity.
Defined.

(** X2.  As long as the next rowid is a 64-bit integer, [add_product]
    without an identifier, for a quantity that is a 64-bit integer and a
    price that is not NaN nor the negative zero, returns; the new row gets
    an identifier larger than every identifier in use, and no row that was
    in the store is changed or replaced. *)
Theorem add_product_assigns_fresh_id (name : string) (q : Z) (pr : float)
    (d : option string) (w : world) :
  int64 q = true -> stored_as_is pr = true ->
  int64 (next_rowid (store w)) = true ->
  fst (add_product name q pr d None w) = Ok tt /\
  store (snd (add_product name q pr d None w)) !! next_rowid (store w) =
    Some (mkProduct name q pr d) /\
  forall j p, store w !! j = Some p ->
    j < next_rowid (store w) /\
    store (snd (add_product name q pr d None w)) !! j = Some p.
Proof.
  intros _ _ _. rewrite add_product_auto by done. cbn.
  split; [done |]. split; [by rewrite lookup_insert_eq |].
  intros j p Hj.
  assert (Hlt : j < next_rowid (store w)) by (apply rowids_lt_next; eauto).
  split; [done |]. rewrite lookup_insert_ne by lia. done.
Qed.

Lemma add_product_assigns_fresh_id_witness :
  7 < next_rowid (store world_bolt) /\
  store (snd (add_product "Nut" 4 0.25%float None None world_bolt)) !! 7 =
    Some bolt.
Proof.
  destruct (add_product_assigns_fresh_id "Nut" 4 0.25%float None world_bolt)
    as (_ & _ & Hold); [vm_compute; reflexivity.. |].
  apply (Hold 7 bolt). vm_compute. reflexivity.
Defined.

(** X3.  Identifiers are reused: when the row that [add_product] has just
    created without an identifier is deleted, the next [add_product]
    without an identifier creates its row under the same identifier.  The
    next rowid and the two quantities are 64-bit integers, and the two
    prices are not NaN nor the negative zero. *)
Theorem rowid_reused_after_delete (name1 name2 : string) (q1 q2 : Z)
    (pr1 pr2 : float) (d1 d2 : option string) (w : world) :
  int64 (next_rowid (store w)) = true ->
  int64 q1 = true -> int64 q2 = true ->
  stored_as_is pr1 = true -> stored_as_is pr2 = true ->
  store
    (snd (add_product name2 q2 pr2 d2 None
            (snd (delete_product (next_rowid (store w))
                    (snd (add_product name1 q1 pr1 d1 None w))))))
    = <[next_rowid (store w) := mkProduct name2 q2 pr2 d2]> (store w).
Proof.
  intros _ _ _ _ _.
  rewrite (add_product_auto name1) by done. cbn [snd].
  rewrite delete_product_run. cbn [snd].
  rewrite add_product_auto by done. cbn [snd store].
  rewrite delete_insert_eq.
  rewrite (delete_id (store w)) by apply next_rowid_fresh. done.
Qed.

Lemma rowid_reused_after_delete_witness :
  store
    (snd (add_product "Washer" 6 0.125%float None None
            (snd (delete_product (next_rowid (store world_bolt))
                    (snd (add_product "Nut" 4 0.25%float None None
                            world_bolt))))))
    = <[next_rowid (store world_bolt) := mkProduct "Washer" 6 0.125%float None]>
        (store world_bolt).
Proof.
  apply (rowid_reused_after_delete "Nut" "Washer" 4 6 0.25%float 0.125%float
           None None world_bolt); vm_compute; reflexivity.
Defined.

(** X4.  [add_stock] followed by [remove_stock] of the same quantity on a
    product with non-negative stock returns and gives back the store as it
    was, as long as the identifier and the stock in between are 64-bit
    integers. *)
Theorem add_then_remove_stock (i q : Z) (p : product) (w : world) :
  store w !! i = Some p -> 0 <= quantity p -> 0 <= q ->
  int64 i = true -> int64 (quantity p + q) = true ->
  fst (remove_stock i q (snd (add_stock i q w))) = Ok tt /\
  store (snd (remove_stock i q (snd (add_stock i q w)))) = store w.
Proof.
  intros Hp Hnn Hq _ _. rewrite add_stock_run by done. cbn.
  unfold update_add. rewrite (alter_found _ _ _ p) by done.
  rewrite (remove_stock_run i q (set_quantity (quantity p + q) p));
    [| done | cbn; by rewrite lookup_insert_eq | cbn; lia].
  cbn. split; [done |]. unfold update_sub.
  rewrite (alter_found _ _ _ (set_quantity (quantity p + q) p))
    by (by rewrite lookup_insert_eq).
  rewrite insert_insert_eq. cbn.
  replace (quantity p + q - q) with (quantity p) by lia.
  unfold set_quantity at 1. cbn. fold (set_quantity (quantity p) p).
  rewrite set_quantity_same. by apply insert_id.
Qed.

Lemma add_then_remove_stock_witness :
  fst (remove_stock 7 30 (snd (add_stock 7 30 world_bolt))) = Ok tt /\
  store (snd (remove_stock 7 30 (snd (add_stock 7 30 world_bolt)))) =
    store world_bolt.
Proof.
  apply (add_then_remove_stock 7 30 bolt world_bolt);
    [vm_compute; reflexivity | cbn; lia | lia
    | vm_compute; reflexivity | vm_compute; reflexivity].
Defined.

(** X5.  When [remove_stock] raises after it has connected (no such
    product, or more than the stock), it has run its SELECT and nothing
    else: nothing is committed and the connection is not closed. *)
Theorem remove_stock_failure_leaves_connection (i q : Z) (w : world)
    (e : exn) :
  0 <= q -> fst (remove_stock i q w) = Raise e ->
  trace (snd (remove_stock i q w)) =
    trace w ++ [EvConnect; EvExecute (SelectQuantity i)] /\
  store (snd (remove_stock i q w)) = store w.
Proof.
  intros Hq Hraise.
  destruct (store w !! i) as [p|] eqn:Hp.
  - destruct (Z.lt_ge_cases (quantity p) q) as [Hlt | Hle].
    + by rewrite (remove_stock_excess i q p).
    + rewrite (remove_stock_run i q p) in Hraise by done. discriminate.
  - by rewrite remove_stock_missing.
Qed.

Lemma remove_stock_failure_leaves_connection_witness :
  trace (snd (remove_stock 7 101 world_bolt)) =
    trace world_bolt ++ [EvConnect; EvExecute (SelectQuantity 7)] /\
  store (snd (remove_stock 7 101 world_bolt)) = store world_bolt.
Proof.
  apply (remove_stock_failure_leaves_connection 7 101 world_bolt
           (ValueError "Cannot remove more than available quantity."));
    [lia | vm_compute; reflexivity].
Defined.

(** X6.  [update_quantity] with an identifier and a quantity that are
    64-bit integers returns and overwrites the quantity with the integer
    it is given, a negative one included: [get_product] then shows that
    quantity with name, price and description as before, every other row
    is unchanged, and for an identifier that does not exist nothing
    changes. *)
Theorem update_quantity_overwrites (i q : Z) (w : world) :
  int64 i = true -> int64 q = true ->
  fst (update_quantity i q w) = Ok tt /\
  (forall p, store w !! i = Some p ->
     fst (get_product i (snd (update_quantity i q w))) =
       Ok (Some (i, product_name p, q, price p, description p))) /\
  (forall j, j <> i ->
     store (snd (update_quantity i q w)) !! j = store w !! j) /\
  (store w !! i = None -> store (snd (update_quantity i q w)) = store w).
Proof.
  intros _ _.
  rewrite update_quantity_run. cbn [fst snd store]. split; [done |].
  split; [| split].
  - intros p Hp. rewrite get_product_run. cbn. unfold update_set.
    rewrite lookup_alter. rewrite decide_True by done. by rewrite Hp.
  - intros j Hj. unfold update_set. rewrite lookup_alter.
    rewrite decide_False by done. done.
  - intros Hp. unfold update_set. by rewrite alter_missing.
Qed.

Lemma update_quantity_overwrites_witness :
  fst (get_product 7 (snd (update_quantity 7 (-5) world_bolt))) =
    Ok (Some (7, product_name bolt, -5, price bolt, description bolt)) /\
  store (snd (update_quantity 8 3 world_bolt)) !! 7 = store world_bolt !! 7 /\
  store (snd (update_quantity 8 3 world_bolt)) = store world_bolt.
Proof.
  destruct (update_quantity_overwrites 7 (-5) world_bolt) as (_ & Hset & _);
    [vm_compute; reflexivity.. |].
  destruct (update_quantity_overwrites 8 3 world_bolt)
    as (_ & _ & Hother & Hnone); [vm_compute; reflexivity.. |].
  split; [apply Hset; vm_compute; reflexivity |].
  split; [apply Hother; lia | apply Hnone; vm_compute; reflexivity].
Defined.

(** X7.  [update_product] with an identifier and a quantity that are
    64-bit integers and a price that a REAL column gives back as it is (not
    NaN, not the negative zero) returns.  For a product that exists,
    [get_product] then returns the new name, quantity, price and
    description under the same identifier; for an identifier that does not
    exist nothing is inserted and the store is unchanged; every other row
    is unchanged. *)
Theorem update_product_overwrites (i : Z) (name : string) (q : Z)
    (pr : float) (d : option string) (w : world) :
  int64 i = true -> int64 q = true -> stored_as_is pr = true ->
  fst (update_product i name q pr d w) = Ok tt /\
  (is_Some (store w !! i) ->
     fst (get_product i (snd (update_product i name q pr d w))) =
       Ok (Some (i, name, q, pr, d))) /\
  (store w !! i = None ->
     store (snd (update_product i name q pr d w)) = store w) /\
  (forall j, j <> i ->
     store (snd (update_product i name q pr d w)) !! j = store w !! j).
Proof.
  intros _ _ _.
  rewrite update_product_run. cbn [fst snd store]. split; [done |].
  split; [| split].
  - intros [p Hp]. rewrite get_product_run. cbn. unfold update_row.
    rewrite lookup_alter. rewrite decide_True by done. by rewrite Hp.
  - intros Hp. unfold update_row. by rewrite alter_missing.
  - intros j Hj. unfold update_row. rewrite lookup_alter.
    rewrite decide_False by done. done.
Qed.

Lemma update_product_overwrites_witness :
  fst (get_product 7
         (snd (update_product 7 "Nut" 4 0.25%float None world_bolt))) =
    Ok (Some (7, "Nut"%string, 4, 0.25%float, None)) /\
  store (snd (update_product 8 "Nut" 4 0.25%float None world_bolt)) =
    store world_bolt /\
  store (snd (update_product 8 "Nut" 4 0.25%float None world_bolt)) !! 7 =
    store world_bolt !! 7.
Proof.
  destruct (update_product_overwrites 7 "Nut" 4 0.25%float None world_bolt)
    as (_ & Hset & _); [vm_compute; reflexivity.. |].
  destruct (update_product_overwrites 8 "Nut" 4 0.25%float None world_bolt)
    as (_ & _ & Hnone & Hother); [vm_compute; reflexivity.. |].
  split; [apply Hset; exists bolt; vm_compute; reflexivity |].
  split; [apply Hnone; vm_compute; reflexivity | apply Hother; lia].
Defined.

(** X8.  [delete_product] with an identifier that is a 64-bit integer
    returns, also when no product has the identifier.  Afterwards
    [get_product] on the identifier returns [None], [remove_stock] on it
    raises "Product ID not found.", and every other row is as before. *)
Theorem delete_product_removes (i : Z) (w : world) :
  int64 i = true ->
  fst (delete_product i w) = Ok tt /\
  fst (get_product i (snd (delete_product i w))) = Ok None /\
  (forall q, 0 <= q ->
     fst (remove_stock i q (snd (delete_product i w))) =
       Raise (ValueError "Product ID not found.")) /\
  (forall j, j <> i ->
     store (snd (delete_product i w)) !! j = store w !! j).
Proof.
  intros _.
  rewrite delete_product_run. cbn [fst snd store]. split; [done |].
  split; [| split].
  - rewrite get_product_run. cbn. by rewrite lookup_delete_eq.
  - intros q Hq. rewrite remove_stock_missing; [done | done |].
    cbn. by rewrite lookup_delete_eq.
  - intros j Hj. by rewrite lookup_delete_ne.
Qed.

Lemma delete_product_removes_witness :
  fst (remove_stock 7 1 (snd (delete_product 7 world_bolt))) =
    Raise (ValueError "Product ID not found.") /\
  store (snd (delete_product 8 world_bolt)) !! 7 = store world_bolt !! 7.
Proof.
  destruct (delete_product_removes 7 world_bolt) as (_ & _ & Hrm & _);
    [vm_compute; reflexivity |].
  destruct (delete_product_removes 8 world_bolt) as (_ & _ & _ & Hother);
    [vm_compute; reflexivity |].
  split; [apply Hrm; lia | apply Hother; lia].
Defined.

(** X9.  [get_product] with an identifier that is a 64-bit integer only
    reads: it returns, leaves the store as it was, and its answer is
    [None] exactly when no product has the identifier; otherwise it is the
    tuple of the identifier and the four columns of the row. *)
Theorem get_product_reads (i : Z) (w : world) :
  int64 i = true ->
  store (snd (get_product i w)) = store w /\
  (fst (get_product i w) = Ok None <-> store w !! i = None) /\
  (forall p, store w !! i = Some p ->
     fst (get_product i w) =
       Ok (Some (i, product_name p, quantity p, price p, description p))).
Proof.
  intros _.
  rewrite get_product_run. cbn. split; [done |]. split.
  - destruct (store w !! i); cbn; split; intros Heq; by simplify_eq.
  - intros p Hp. by rewrite Hp.
Qed.

Lemma get_product_reads_witness :
  fst (get_product 7 world_bolt) =
    Ok (Some (7, product_name bolt, quantity bolt, price bolt,
              description bolt)) /\
  fst (get_product 8 world_bolt) = Ok None.
Proof.
  destruct (get_product_reads 7 world_bolt) as (_ & _ & Hsome);
    [vm_compute; reflexivity |].
  destruct (get_product_reads 8 world_bolt) as (_ & [_ Hnone] & _);
    [vm_compute; reflexivity |].
  split; [apply Hsome; vm_compute; reflexivity |].
  apply Hnone. vm_compute. reflexivity.
Defined.

(** * Listing and searching *)

Lemma list_products_run (w : world) :
  list_products w =
    (Ok (all_rows (store w)),
     mkWorld (store w) (store w) (trace w ++ [EvConnect; EvClose])
       (files w) (blocked w)).
Proof. unfold list_products. run. by rewrite !app_snoc. Qed.

Lemma search_products_by_name_run (name : string) (w : world) :
  search_products_by_name name w =
    (Ok (select_like name (store w)),
     mkWorld (store w) (store w) (trace w ++ [EvConnect; EvClose])
       (files w) (blocked w)).
Proof. unfold search_products_by_name. run. by rewrite !app_snoc. Qed.

Lemma elem_of_all_rows (t : table) (r : db_row) :
  r ∈ all_rows t <-> exists i p, t !! i = Some p /\ r = row_of i p.
Proof.
  unfold all_rows. rewrite list_elem_of_fmap. split.
  - intros ([i p] & -> & Hin). rewrite merge_sort_Permutation in Hin.
    apply elem_of_map_to_list in Hin. eauto.
  - intros (i & p & Hp & ->). exists (i, p). split; [done |].
    rewrite merge_sort_Permutation. by apply elem_of_map_to_list.
Qed.

Lemma row_id_all_rows (t : table) :
  row_id <$> all_rows t = (merge_sort rowid_le (map_to_list t)).*1.
Proof.
  unfold all_rows. rewrite <- list_fmap_compose. by apply list_fmap_ext.
Qed.

#[local] Instance rowid_le_trans : Transitive rowid_le.
Proof. intros x y z. unfold rowid_le. lia. Qed.

#[local] Instance rowid_le_total : Total rowid_le.
Proof. intros x y. unfold rowid_le. lia. Qed.

(** X10.  [list_products] only reads and returns every row of the table
    exactly once: a tuple is in the answer exactly when it is the row of a
    product of the store, the answer has as many tuples as the store has
    products, no two with the same identifier, and they come by increasing
    identifier. *)
Theorem list_products_complete (w : world) :
  store (snd (list_products w)) = store w /\
  exists rows,
    fst (list_products w) = Ok rows /\
    (forall r, r ∈ rows <->
       exists i p, store w !! i = Some p /\ r = row_of i p) /\
    length rows = size (store w) /\
    NoDup (row_id <$> rows) /\
    StronglySorted Z.le (row_id <$> rows).
Proof.
  rewrite list_products_run. cbn [fst snd store]. split; [done |].
  exists (all_rows (store w)). split; [done |].
  split; [apply elem_of_all_rows |]. split; [| split].
  - unfold all_rows. rewrite length_fmap.
    rewrite (Permutation_length (merge_sort_Permutation _ _)).
    apply length_map_to_list.
  - rewrite row_id_all_rows.
    rewrite (merge_sort_Permutation rowid_le (map_to_list (store w))).
    apply NoDup_fst_map_to_list.
  - rewrite row_id_all_rows.
    apply (StronglySorted_fmap fst rowid_le Z.le); [done |].
    apply StronglySorted_merge_sort; apply _.
Qed.

(** ** The operator LIKE *)

Lemma like_any_nil (p : string) :
  like (String "%" p) EmptyString = like p EmptyString || false.
Proof. reflexivity. Qed.

Lemma like_any_cons (p : string) (c : ascii) (s : string) :
  like (String "%" p) (String c s) =
    like p (String c s) || like (String "%" p) s.
Proof. reflexivity. Qed.

(** [%] at the head of a pattern stands for any prefix of the text. *)
Lemma append_nil_l (s : string) : EmptyString +:+ s = s.
Proof. reflexivity. Qed.

Lemma append_cons (c : ascii) (s1 s2 : string) :
  String c s1 +:+ s2 = String c (s1 +:+ s2).
Proof. reflexivity. Qed.

Lemma like_any (p s : string) :
  like (String "%" p) s = true <->
  exists pre post, s = pre +:+ post /\ like p post = true.
Proof.
  induction s as [|c s IH].
  - rewrite like_any_nil, orb_false_r. split.
    + intros Hp. exists EmptyString, EmptyString.
      split; [reflexivity | exact Hp].
    + intros (pre & post & Heq & Hp).
      destruct pre; [| discriminate]. rewrite append_nil_l in Heq. by subst.
  - rewrite like_any_cons, orb_true_iff, IH. split.
    + intros [Hp | (pre & post & -> & Hp)].
      * exists EmptyString, (String c s). split; [reflexivity | exact Hp].
      * exists (String c pre), post. split; [reflexivity | exact Hp].
    + intros (pre & post & Heq & Hp). destruct pre as [|d pre].
      * rewrite append_nil_l in Heq. subst. by left.
      * rewrite append_cons in Heq. injection Heq as -> ->. right. eauto.
Qed.

Lemma like_percent (s : string) : like "%" s = true.
Proof.
  induction s as [|c s IH]; [reflexivity |].
  rewrite like_any_cons, IH. apply orb_true_r.
Qed.

Lemma plain_cons (c : ascii) (n : string) :
  plain (String c n) = true ->
  c <> "%"%char /\ c <> "_"%char /\ plain n = true.
Proof.
  destruct c as [[] [] [] [] [] [] [] []]; cbn; intros Hp;
    try discriminate Hp; repeat split; try done.
Qed.

(** A character of the pattern that is no wildcard stands for itself, up
    to case. *)
Lemma like_char (c : ascii) (p s : string) :
  c <> "%"%char -> c <> "_"%char ->
  like (String c p) s =
    match s with
    | EmptyString => false
    | String d s' => Ascii.eqb (lower c) (lower d) && like p s'
    end.
Proof.
  intros H1 H2.
  destruct c as [[] [] [] [] [] [] [] []];
    try reflexivity; exfalso; first [by apply H1 | by apply H2].
Qed.

Lemma like_plain_prefix (n : string) :
  plain n = true ->
  forall s,
    like (n +:+ "%") s = true <->
    exists mid post, s = mid +:+ post /\ lower_string mid = lower_string n.
Proof.
  induction n as [|c n IH]; intros Hpl s.
  - rewrite append_nil_l. split.
    + intros _. exists EmptyString, s. split; reflexivity.
    + intros _. apply like_percent.
  - apply plain_cons in Hpl as (H1 & H2 & Hpl).
    rewrite append_cons, like_char by done. destruct s as [|d s].
    + split; [discriminate |]. intros (mid & post & Heq & Hlow).
      destruct mid as [|d' mid]; [discriminate Hlow |].
      rewrite append_cons in Heq. discriminate Heq.
    + rewrite andb_true_iff, (IH Hpl s), Ascii.eqb_eq. split.
      * intros [Hc (mid & post & -> & Hlow)].
        exists (String d mid), post. split; [reflexivity |].
        cbn. by rewrite Hlow, Hc.
      * intros (mid & post & Heq & Hlow).
        destruct mid as [|d' mid]; [discriminate Hlow |].
        rewrite append_cons in Heq. injection Heq as -> ->.
        cbn in Hlow. injection Hlow as Hc Hlow. split; [done | eauto].
Qed.

(** The pattern of a search for a text without wildcards matches the names
    that contain the text up to case. *)
Lemma like_contains (name s : string) :
  plain name = true ->
  like ("%" +:+ name +:+ "%") s = true <-> contains_ci name s.
Proof.
  intros Hpl. rewrite append_cons, append_nil_l, like_any. unfold contains_ci.
  split.
  - intros (pre & rest & -> & Hlike).
    apply (like_plain_prefix name Hpl) in Hlike as (mid & post & -> & Hlow).
    eauto.
  - intros (pre & mid & post & -> & Hlow). exists pre, (mid +:+ post).
    split; [done |]. apply (like_plain_prefix name Hpl). eauto.
Qed.

Lemma elem_of_select_like (name : string) (t : table) (r : db_row) :
  r ∈ select_like name t <->
  exists i p,
    t !! i = Some p /\ r = row_of i p /\
    like ("%" +:+ name +:+ "%") (product_name p) = true.
Proof.
  unfold select_like. rewrite list_elem_of_filter, elem_of_all_rows. split.
  - intros (Hlike & i & p & Hp & ->). eauto.
  - intros (i & p & Hp & -> & Hlike). eauto.
Qed.

(** X11.  For a text whose pattern stays below SQLite's limit for [LIKE]
    patterns, and when neither the text nor a stored name holds the
    character NUL: [search_products_by_name] only reads, and every tuple of
    its answer is a row of the store.  When the text searched for has
    neither [%] nor [_], the answer holds exactly the rows whose name
    contains the text, whatever the case of the ASCII letters on either
    side. *)
Theorem search_finds_names_containing (name : string) (w : world) :
  Z.of_nat (String.length name) + 2 < like_pattern_limit ->
  no_nul name = true ->
  (forall i p, store w !! i = Some p -> no_nul (product_name p) = true) ->
  store (snd (search_products_by_name name w)) = store w /\
  exists rows,
    fst (search_products_by_name name w) = Ok rows /\
    (forall r, r ∈ rows ->
       exists i p, store w !! i = Some p /\ r = row_of i p) /\
    (plain name = true ->
     forall r, r ∈ rows <->
       exists i p,
         store w !! i = Some p /\ r = row_of i p /\
         contains_ci name (product_name p)).
Proof.
  intros _ _ _.
  rewrite search_products_by_name_run. cbn [fst snd store]. split; [done |].
  exists (select_like name (store w)). split; [done |]. split.
  - intros r Hr. apply elem_of_select_like in Hr as (i & p & Hp & -> & _).
    eauto.
  - intros Hpl r. rewrite elem_of_select_like. split.
    + intros (i & p & Hp & -> & Hlike). exists i, p.
      split; [done |]. split; [done |]. by apply like_contains.
    + intros (i & p & Hp & -> & Hc). exists i, p.
      split; [done |]. split; [done |]. by apply like_contains.
Qed.

Lemma search_finds_names_containing_witness :
  exists rows,
    fst (search_products_by_name "OL" world_bolt) = Ok rows /\
    row_of 7 bolt ∈ rows.
Proof.
  destruct (search_finds_names_containing "OL" world_bolt)
    as [_ (rows & Hrows & _ & Hiff)].
  { vm_compute. reflexivity. }
  { reflexivity. }
  { intros i p Hp. destruct (decide (i = 7)) as [-> | Hne].
    - vm_compute in Hp. injection Hp as <-. reflexivity.
    - unfold world_bolt in Hp. cbn in Hp.
      rewrite lookup_singleton_ne in Hp by done. discriminate. }
  exists rows. split; [exact Hrows |].
  apply Hiff; [reflexivity |].
  exists 7, bolt. split; [vm_compute; reflexivity |]. split; [reflexivity |].
  exists "B"%string, "ol"%string, "t"%string. split; reflexivity.
Defined.

Lemma filter_all {A} (P : A -> Prop) `{forall x, Decision (P x)} (l : list A) :
  (forall x, P x) -> filter P l = l.
Proof.
  intros HP. induction l as [|x l IH]; [done |].
  rewrite filter_cons. rewrite decide_True by done. by rewrite IH.
Qed.

(** X12.  The text searched for is put into the pattern as it is: a search
    for the empty text, and a search for [%], return every product, as
    [list_products] does. *)
Theorem search_without_text_lists_all (w : world) :
  fst (search_products_by_name "" w) = fst (list_products w) /\
  fst (search_products_by_name "%" w) = fst (list_products w).
Proof.
  rewrite !search_products_by_name_run, list_products_run. cbn [fst].
  split; f_equal; unfold select_like; apply filter_all; intros r.
  - apply like_any. exists EmptyString, (row_name r).
    split; [reflexivity | apply like_percent].
  - apply like_any. exists EmptyString, (row_name r).
    split; [reflexivity |]. apply like_any. exists EmptyString, (row_name r).
    split; [reflexivity | apply like_percent].
Qed.

(** * Further properties of the batch methods *)

Section BatchRuns.
Context `{Builtins}.

Lemma process_incoming_goods_raise (filename : string) (w w' : world)
    (e : exn) :
  process_incoming_goods filename w = (Raise e, w') ->
  store w' = store w /\ files w' = files w /\
  exists stmts, trace w' = trace w ++ [EvConnect] ++ (EvExecute <$> stmts).
Proof.
  unfold process_incoming_goods.
  unfold bind at 1. unfold connect_db at 1.
  unfold bind at 1. unfold open_csv at 1. cbn.
  destruct (files w !! filename) as [rows|] eqn:Hf.
  - unfold bind at 1.
    destruct (for_each incoming_row rows tt _) as [[[]|e'] w1] eqn:Hloop.
    + destruct (only_executes_for_each incoming_row rows
                  only_executes_incoming_row tt _ _ _ Hloop)
        as (Hs & Hfl & Hb & stmts & Ht).
      cbn in Hs, Hfl, Hb, Ht.
      unfold bind at 1. unfold shutil_move at 1. cbn beta.
      rewrite Hfl, Hf, Hb.
      case_bool_decide as Hblk.
      * intros [= <- <-]. split; [done |]. split; [done |].
        exists stmts. by rewrite Ht, <- app_assoc.
      * run. discriminate.
    + destruct (only_executes_for_each incoming_row rows
                  only_executes_incoming_row tt _ _ _ Hloop)
        as (Hs & Hfl & Hb & stmts & Ht).
      cbn in Hs, Hfl, Hb, Ht.
      intros [= <- <-]. split; [done |]. split; [done |].
      exists stmts. by rewrite Ht, <- app_assoc.
  - intros [= <- <-]. cbn. split; [done |]. split; [done |].
    exists []. cbn. done.
Qed.

Lemma process_outgoing_goods_raise (filename : string) (w w' : world)
    (e : exn) :
  process_outgoing_goods filename w = (Raise e, w') ->
  store w' = store w /\ files w' = files w /\
  exists stmts, trace w' = trace w ++ [EvConnect] ++ (EvExecute <$> stmts).
Proof.
  unfold process_outgoing_goods.
  unfold bind at 1. unfold connect_db at 1.
  unfold bind at 1. unfold open_csv at 1. cbn.
  destruct (files w !! filename) as [rows|] eqn:Hf.
  - unfold bind at 1.
    destruct (for_each outgoing_row rows [] _) as [[lines|e'] w1] eqn:Hloop.
    + destruct (only_executes_for_each outgoing_row rows
                  only_executes_outgoing_row [] _ _ _ Hloop)
        as (Hs & Hfl & Hb & stmts & Ht).
      cbn in Hs, Hfl, Hb, Ht.
      unfold bind at 1. unfold shutil_move at 1. cbn beta.
      rewrite Hfl, Hf, Hb.
      case_bool_decide as Hblk.
      * intros [= <- <-]. split; [done |]. split; [done |].
        exists stmts. by rewrite Ht, <- app_assoc.
      * unfold write_invoice. run. discriminate.
    + destruct (only_executes_for_each outgoing_row rows
                  only_executes_outgoing_row [] _ _ _ Hloop)
        as (Hs & Hfl & Hb & stmts & Ht).
      cbn in Hs, Hfl, Hb, Ht.
      intros [= <- <-]. split; [done |]. split; [done |].
      exists stmts. by rewrite Ht, <- app_assoc.
  - intros [= <- <-]. cbn. split; [done |]. split; [done |].
    exists []. cbn. done.
Qed.

Lemma process_outgoing_goods_parts (filename : string) (w : world) :
  process_outgoing_goods filename w =
    (invoice_data <- outgoing_rows_and_move filename ;;
     commit ;;;
     close ;;;
     write_invoice invoice_data filename) w.
Proof.
  unfold process_outgoing_goods, outgoing_rows_and_move, bind, connect_db,
    ret.
  destruct (open_csv filename _) as [[rows|e] w1]; [| done].
  destruct (for_each outgoing_row rows [] w1) as [[inv|e] w2]; [| done].
  destruct (shutil_move filename "./OutgoingGoods/Processed" w2)
    as [[[]|e] w3]; done.
Qed.

(** X13.  [process_incoming_goods] that raises, and
    [process_outgoing_goods] that raises before its commit (no such file, a
    row it cannot read, a file it cannot move), have committed nothing: the
    store is as before, the file has not been moved, and the only effects
    are the connection and the statements of the rows read so far; no
    invoice is written. *)
Theorem batch_failure_commits_nothing (filename : string) (w : world) :
  (forall e, fst (process_incoming_goods filename w) = Raise e ->
     store (snd (process_incoming_goods filename w)) = store w /\
     files (snd (process_incoming_goods filename w)) = files w /\
     exists stmts,
       trace (snd (process_incoming_goods filename w)) =
         trace w ++ [EvConnect] ++ (EvExecute <$> stmts)) /\
  (forall e, fst (outgoing_rows_and_move filename w) = Raise e ->
     fst (process_outgoing_goods filename w) = Raise e /\
     store (snd (process_outgoing_goods filename w)) = store w /\
     files (snd (process_outgoing_goods filename w)) = files w /\
     exists stmts,
       trace (snd (process_outgoing_goods filename w)) =
         trace w ++ [EvConnect] ++ (EvExecute <$> stmts)).
Proof.
  split; intros e He.
  - destruct (process_incoming_goods filename w) as [r w'] eqn:Hrun.
    cbn in He. subst r. cbn. by eapply process_incoming_goods_raise.
  - assert (Hrun : process_outgoing_goods filename w =
                     (Raise e, snd (outgoing_rows_and_move filename w))).
    { rewrite process_outgoing_goods_parts. unfold bind at 1.
      destruct (outgoing_rows_and_move filename w) as [r w']. cbn in He.
      by subst r. }
    rewrite Hrun. cbn [fst snd]. split; [done |].
    by eapply process_outgoing_goods_raise.
Qed.

Lemma process_missing_file (filename : string) (w : world) :
  files w !! filename = None ->
  fst (process_incoming_goods filename w) = Raise OSError /\
  fst (process_outgoing_goods filename w) = Raise OSError.
Proof.
  intros Hf. unfold process_incoming_goods, process_outgoing_goods.
  unfold bind, connect_db, open_csv. cbn. by rewrite Hf.
Qed.

(** X14.  A batch method called on a path that holds no file raises
    [OSError], the error of [open], right after it has connected: no
    statement has run, nothing is committed, moved or written, and the
    store is as before.  This is what a second run on a batch file meets
    once the first run has moved the file away. *)
Theorem batch_file_missing (filename : string) (w : world) :
  files w !! filename = None ->
  process_incoming_goods filename w =
    (Raise OSError,
     mkWorld (store w) (store w) (trace w ++ [EvConnect]) (files w)
       (blocked w)) /\
  process_outgoing_goods filename w =
    (Raise OSError,
     mkWorld (store w) (store w) (trace w ++ [EvConnect]) (files w)
       (blocked w)).
Proof.
  intros Hf. unfold process_incoming_goods, process_outgoing_goods.
  unfold bind, connect_db, open_csv. cbn. by rewrite Hf.
Qed.

End BatchRuns.

Lemma batch_failure_commits_nothing_witness :
  store (snd (@process_incoming_goods decimal_builtins "in.csv"
                (mkWorld ∅ ∅ []
                   {["in.csv"%string :=
                       incoming_batch ++
                         [mkRow (Some "8, Nut"%string) (Some "x"%string)]]}
                   []))) = ∅ /\
  store (snd (@process_outgoing_goods decimal_builtins "out.csv"
                (mkWorld {[7 := bolt]} {[7 := bolt]} []
                   {["out.csv"%string := outgoing_batch]}
                   ["out.csv"%string]))) = {[7 := bolt]}.
Proof.
  split.
  - destruct (@batch_failure_commits_nothing decimal_builtins "in.csv"%string
                (mkWorld ∅ ∅ []
                   {["in.csv"%string :=
                       incoming_batch ++
                         [mkRow (Some "8, Nut"%string) (Some "x"%string)]]}
                   [])) as [Hin _].
    destruct (Hin (ValueError "invalid literal for int() with base 10"))
      as [Hs _]; [vm_compute; reflexivity |].
    exact Hs.
  - destruct (@batch_failure_commits_nothing decimal_builtins "out.csv"%string
                (mkWorld {[7 := bolt]} {[7 := bolt]} []
                   {["out.csv"%string := outgoing_batch]}
                   ["out.csv"%string])) as [_ Hout].
    destruct (Hout OSError) as (_ & Hs & _); [vm_compute; reflexivity |].
    exact Hs.
Defined.

Lemma batch_file_missing_witness :
  @process_outgoing_goods decimal_builtins "out.csv"
    (snd (@process_outgoing_goods decimal_builtins "out.csv" world_bolt)) =
    (Raise OSError,
     mkWorld
       (store (snd (@process_outgoing_goods decimal_builtins "out.csv"
                      world_bolt)))
       (store (snd (@process_outgoing_goods decimal_builtins "out.csv"
                      world_bolt)))
       (trace (snd (@process_outgoing_goods decimal_builtins "out.csv"
                      world_bolt)) ++ [EvConnect])
       (files (snd (@process_outgoing_goods decimal_builtins "out.csv"
                      world_bolt)))
       (blocked (snd (@process_outgoing_goods decimal_builtins "out.csv"
                        world_bolt)))).
Proof.
  destruct (@batch_file_missing decimal_builtins "out.csv"%string
              (snd (@process_outgoing_goods decimal_builtins "out.csv"
                      world_bolt))) as [_ Hout]; [vm_compute; reflexivity |].
  exact Hout.
Defined.

Section BatchContent.
Context `{Builtins}.

(** X15.  A run of [process_outgoing_goods] that returns creates no product
    and deletes none, and changes nothing but quantities: every product has
    its name, price and description as before, and a product that no row
    of the batch names is exactly as before. *)
Theorem outgoing_keeps_catalog (filename : string) (rows : list csv_row)
    (w w' : world) (i : Z) :
  files w !! filename = Some rows ->
  process_outgoing_goods filename w = (Ok tt, w') ->
  (store w' !! i = None <-> store w !! i = None) /\
  forall p, store w !! i = Some p ->
    exists p',
      store w' !! i = Some p' /\
      product_name p' = product_name p /\ price p' = price p /\
      description p' = description p /\
      (rows_for i (omap outgoing_entry rows) = [] -> p' = p).
Proof.
  intros Hf Hrun.
  apply process_outgoing_goods_ok in Hrun
    as (rows' & lines & w1 & stmts & Hf' & Hloop & _ & _ & ->).
  assert (rows' = rows) as -> by congruence.
  cbn [store]. rewrite (for_each_outgoing_work _ _ _ _ _ i Hloop). cbn [work].
  split.
  - by destruct (store w !! i).
  - intros p Hp. rewrite Hp. cbn. eexists. split; [done |]. cbn.
    split; [done |]. split; [done |]. split; [done |].
    intros ->. cbn. apply set_quantity_same.
Qed.

(** X18.  A row without content (no CODECONTENT, or an empty one) is
    skipped by both loops and changes nothing; [process_incoming_goods]
    skips it without looking at its quantity, whereas
    [process_outgoing_goods] has converted the quantity before, so that
    such a row raises [TypeError] when it has no QUANTITY and [ValueError]
    when [int] rejects it. *)
Theorem rows_without_content (row : csv_row) (inv : list invoice_item)
    (w : world) :
  truthy_str (CODECONTENT row) = None ->
  incoming_row row tt w = (Ok tt, w) /\
  (forall qs n, QUANTITY row = Some qs -> int_of_str qs = Some n ->
     outgoing_row row inv w = (Ok inv, w)) /\
  (QUANTITY row = None -> outgoing_row row inv w = (Raise TypeError, w)) /\
  (forall qs, QUANTITY row = Some qs -> int_of_str qs = None ->
     outgoing_row row inv w =
       (Raise (ValueError "invalid literal for int() with base 10"), w)).
Proof.
  intros Hs. unfold incoming_row, outgoing_row, py_int. rewrite Hs.
  split; [done |]. split; [| split].
  - intros qs n -> Hn. run. by rewrite Hn.
  - intros ->. by run.
  - intros qs -> Hn. run. by rewrite Hn.
Qed.

End BatchContent.

Lemma outgoing_keeps_catalog_witness :
  (store (snd (@process_outgoing_goods decimal_builtins "out.csv"
                 world_bolt)) !! 7 = None <-> store world_bolt !! 7 = None) /\
  forall p, store world_bolt !! 7 = Some p ->
    exists p',
      store (snd (@process_outgoing_goods decimal_builtins "out.csv"
                    world_bolt)) !! 7 = Some p' /\
      product_name p' = product_name p /\ price p' = price p /\
      description p' = description p /\
      (rows_for 7 (omap (@outgoing_entry decimal_builtins) outgoing_batch)
         = [] -> p' = p).
Proof.
  apply (@outgoing_keeps_catalog decimal_builtins "out.csv"%string
           outgoing_batch world_bolt); vm_compute; reflexivity.
Defined.

Lemma rows_without_content_witness :
  @incoming_row decimal_builtins (mkRow (Some ""%string) None) tt world_bolt
    = (Ok tt, world_bolt) /\
  @outgoing_row decimal_builtins (mkRow (Some ""%string) None) [] world_bolt
    = (Raise TypeError, world_bolt).
Proof.
  destruct (@rows_without_content decimal_builtins
              (mkRow (Some ""%string) None) [] world_bolt)
    as (Hin & _ & Hout & _); [reflexivity |].
  split; [exact Hin | apply Hout; reflexivity].
Defined.

(** ** The loop of [process_incoming_goods] *)

Lemma quantities_for_cons (i j n : Z) (ps : list (Z * Z)) :
  quantities_for i ((j, n) :: ps) =
    if decide (j = i) then n :: quantities_for i ps else quantities_for i ps.
Proof.
  unfold quantities_for. rewrite filter_cons. cbn. by case_decide.
Qed.

Lemma set_quantity_twice (a b : Z) (p : product) :
  set_quantity a (set_quantity b p) = set_quantity a p.
Proof. reflexivity. Qed.

Section IncomingLoop.
Context `{Builtins}.

Lemma incoming_row_skip (row : csv_row) (w : world) :
  truthy_str (CODECONTENT row) = None ->
  incoming_row row tt w = (Ok tt, w) /\ incoming_id row = None.
Proof.
  intros Hs. unfold incoming_row, incoming_id. by rewrite Hs.
Qed.

(** What a row with content has when the loop body returns on it. *)
Lemma incoming_row_ok (row : csv_row) (w w1 : world) (s : string) :
  truthy_str (CODECONTENT row) = Some s ->
  incoming_row row tt w = (Ok tt, w1) ->
  exists i n,
    incoming_id row = Some i /\ incoming_quantity row = Some n /\
    (work w !! i = None ->
       exists r, incoming_product row = Some r /\ quantity r = n).
Proof.
  intros Hs.
  unfold incoming_row, incoming_id, incoming_product, incoming_quantity,
    py_int, py_float, index, query_all, execute, bind, lift, ret, emit,
    get_work, put_work.
  rewrite Hs. cbn.
  destruct (split_comma_space s !! 0%nat) as [s0|]; cbn; [| discriminate].
  destruct (int_of_str s0) as [i|]; cbn; [| discriminate].
  unfold select_all. destruct (work w !! i) as [p|] eqn:Hp; cbn.
  - destruct (QUANTITY row) as [qs|]; cbn; [| discriminate].
    destruct (int_of_str qs) as [n|]; cbn; [| discriminate].
    intros _. exists i, n. split; [done |]. split; [done |].
    rewrite Hp. discriminate.
  - destruct (split_comma_space s !! 1%nat) as [name|]; cbn;
      [| discriminate].
    destruct (QUANTITY row) as [qs|]; cbn; [| discriminate].
    destruct (int_of_str qs) as [n|]; cbn; [| discriminate].
    destruct (split_comma_space s !! 2%nat) as [s2|]; cbn; [| discriminate].
    destruct (float_of_str s2) as [pr|]; cbn; [| discriminate].
    destruct (split_comma_space s !! 3%nat) as [d|]; cbn; [| discriminate].
    intros _. exists i, n. split; [done |]. split; [done |].
    intros _. eexists. split; [done |]. done.
Qed.

(** A product that is in the table keeps its row through the loop, with
    the quantities of the rows that name it added. *)
Lemma for_each_incoming_existing (rows : list csv_row) :
  forall (w w' : world) (i : Z) (p : product),
    for_each incoming_row rows tt w = (Ok tt, w') ->
    work w !! i = Some p ->
    work w' !! i =
      Some (set_quantity
              (quantity p +
                 sum_Z (quantities_for i (omap incoming_pair rows))) p).
Proof.
  induction rows as [|row rows IH]; intros w w' i p Hrun Hp.
  - cbn in Hrun. injection Hrun as <-. cbn.
    rewrite Z.add_0_r, set_quantity_same. done.
  - cbn in Hrun. unfold bind in Hrun.
    destruct (incoming_row row tt w) as [[[]|err] w1] eqn:Hrow;
      [| discriminate].
    destruct (truthy_str (CODECONTENT row)) as [s|] eqn:Hs.
    + destruct (incoming_row_ok row w w1 s Hs Hrow)
        as (j & n & Hid & Hn & Hnew).
      replace (omap incoming_pair (row :: rows))
        with ((j, n) :: omap incoming_pair rows)
        by (cbn; unfold incoming_pair; by rewrite Hid, Hn).
      rewrite quantities_for_cons.
      destruct (work w !! j) as [pj|] eqn:Hj.
      * rewrite (incoming_row_existing row w j n pj) in Hrow by done.
        injection Hrow as <-.
        case_decide as Hji; subst.
        -- assert (pj = p) as -> by congruence.
           rewrite (IH _ _ i (set_quantity (quantity p + n) p) Hrun)
             by (cbn; by rewrite lookup_insert_eq).
           cbn. rewrite set_quantity_twice. f_equal. f_equal.
           unfold sum_Z. cbn. lia.
        -- apply (IH _ _ i p Hrun). cbn. by rewrite lookup_insert_ne.
      * destruct (Hnew eq_refl) as (r & Hr & _).
        rewrite (incoming_row_new row w j r) in Hrow by done.
        injection Hrow as <-.
        assert (Hji : j <> i) by congruence.
        rewrite decide_False by done.
        apply (IH _ _ i p Hrun). cbn. by rewrite lookup_insert_ne.
    + destruct (incoming_row_skip row w Hs) as [Hskip Hid].
      rewrite Hskip in Hrow. injection Hrow as <-.
      replace (omap incoming_pair (row :: rows))
        with (omap incoming_pair rows)
        by (cbn; unfold incoming_pair; by rewrite Hid).
      by eapply IH.
Qed.

(** A product that is not in the table is created by the first row that
    names it, and the later rows that name it add their quantities. *)
Lemma for_each_incoming_new (rows : list csv_row) :
  forall (w w' : world) (i : Z),
    for_each incoming_row rows tt w = (Ok tt, w') ->
    work w !! i = None ->
    work w' !! i =
      (fun r =>
         set_quantity (sum_Z (quantities_for i (omap incoming_pair rows))) r)
        <$> first_product i rows.
Proof.
  induction rows as [|row rows IH]; intros w w' i Hrun Hp.
  - cbn in Hrun. injection Hrun as <-. by rewrite Hp.
  - cbn in Hrun. unfold bind in Hrun.
    destruct (incoming_row row tt w) as [[[]|err] w1] eqn:Hrow;
      [| discriminate].
    destruct (truthy_str (CODECONTENT row)) as [s|] eqn:Hs.
    + destruct (incoming_row_ok row w w1 s Hs Hrow)
        as (j & n & Hid & Hn & Hnew).
      replace (omap incoming_pair (row :: rows))
        with ((j, n) :: omap incoming_pair rows)
        by (cbn; unfold incoming_pair; by rewrite Hid, Hn).
      rewrite quantities_for_cons. cbn [first_product]. rewrite Hid.
      destruct (decide (j = i)) as [-> | Hji].
      * rewrite decide_True by done.
        destruct (Hnew Hp) as (r & Hr & Hq).
        rewrite (incoming_row_new row w i r) in Hrow by done.
        injection Hrow as <-.
        rewrite (for_each_incoming_existing rows _ _ i r Hrun)
          by (cbn; by rewrite lookup_insert_eq).
        rewrite Hr. cbn. f_equal. f_equal. unfold sum_Z. cbn. lia.
      * rewrite decide_False by congruence.
        apply (IH _ _ i Hrun).
        destruct (work w !! j) as [pj|] eqn:Hj.
        -- rewrite (incoming_row_existing row w j n pj) in Hrow by done.
           injection Hrow as <-. cbn. by rewrite lookup_insert_ne.
        -- destruct (Hnew eq_refl) as (r & Hr & _).
           rewrite (incoming_row_new row w j r) in Hrow by done.
           injection Hrow as <-. cbn. by rewrite lookup_insert_ne.
    + destruct (incoming_row_skip row w Hs) as [Hskip Hid].
      rewrite Hskip in Hrow. injection Hrow as <-.
      replace (omap incoming_pair (row :: rows))
        with (omap incoming_pair rows)
        by (cbn; unfold incoming_pair; by rewrite Hid).
      cbn [first_product]. rewrite Hid. rewrite decide_False by done.
      by eapply IH.
Qed.

(** X16.  After a run of [process_incoming_goods] that returns, every
    product that was in the store is still there, with its name, price and
    description as before and with its quantity increased by the sum of
    the quantities of all the rows of the batch that name it. *)
Theorem incoming_adds_to_existing (filename : string) (rows : list csv_row)
    (w w' : world) (i : Z) (p : product) :
  files w !! filename = Some rows ->
  process_incoming_goods filename w = (Ok tt, w') ->
  store w !! i = Some p ->
  store w' !! i =
    Some (mkProduct (product_name p)
            (quantity p + sum_Z (quantities_for i (omap incoming_pair rows)))
            (price p) (description p)).
Proof.
  intros Hf Hrun Hp.
  apply process_incoming_goods_ok in Hrun
    as (rows' & w1 & stmts & Hf' & Hloop & _ & _ & ->).
  assert (rows' = rows) as -> by congruence.
  cbn [store]. by rewrite (for_each_incoming_existing _ _ _ i p Hloop).
Qed.

(** X17.  After a run of [process_incoming_goods] that returns, a product
    that was not in the store exists exactly when a row of the batch names
    it; it then has the name, price and description of the first such row
    and, as quantity, the sum of the quantities of all such rows.  The
    price of that row is one that a REAL column gives back as it is: the
    negative zero would come back as the positive one. *)
Theorem incoming_creates_from_first_row (filename : string)
    (rows : list csv_row) (w w' : world) (i : Z) :
  files w !! filename = Some rows ->
  process_incoming_goods filename w = (Ok tt, w') ->
  store w !! i = None ->
  (forall r, first_product i rows = Some r -> stored_as_is (price r) = true) ->
  store w' !! i =
    (fun r =>
       mkProduct (product_name r)
         (sum_Z (quantities_for i (omap incoming_pair rows)))
         (price r) (description r))
      <$> first_product i rows.
Proof.
  intros Hf Hrun Hp _.
  apply process_incoming_goods_ok in Hrun
    as (rows' & w1 & stmts & Hf' & Hloop & _ & _ & ->).
  assert (rows' = rows) as -> by congruence.
  cbn [store]. by rewrite (for_each_incoming_new _ _ _ i Hloop).
Qed.

End IncomingLoop.

Lemma incoming_adds_to_existing_witness :
  store (snd (@process_incoming_goods decimal_builtins "in.csv" world_mixed))
    !! 7 =
    Some (mkProduct (product_name bolt)
            (quantity bolt +
               sum_Z (quantities_for 7
                        (omap (@incoming_pair decimal_builtins) mixed_batch)))
            (price bolt) (description bolt)).
Proof.
  apply (@incoming_adds_to_existing decimal_builtins "in.csv"%string
           mixed_batch world_mixed); vm_compute; reflexivity.
Defined.

Lemma incoming_creates_from_first_row_witness :
  store (snd (@process_incoming_goods decimal_builtins "in.csv" world_mixed))
    !! 8 =
    (fun r =>
       mkProduct (product_name r)
         (sum_Z (quantities_for 8
                   (omap (@incoming_pair decimal_builtins) mixed_batch)))
         (price r) (description r))
      <$> @first_product decimal_builtins 8 mixed_batch.
Proof.
  apply (@incoming_creates_from_first_row decimal_builtins "in.csv"%string
           mixed_batch world_mixed); try (vm_compute; reflexivity).
  intros r Hr. vm_compute in Hr. injection Hr as <-. vm_compute. reflexivity.
Defined.

(** The mixed batch, evaluated: product 7 goes from 100 to 120 and keeps
    its price; product 8 is created as the first row describes it, with
    the quantity 4 + 6. *)
Lemma mixed_batch_run :
  store (snd (@process_incoming_goods decimal_builtins "in.csv" world_mixed))
    = <[8 := mkProduct "Nut" 10 0.25%float (Some "hex nut"%string)]>
        {[7 := set_quantity 120 bolt]}.
Proof. vm_compute. reflexivity. Qed.

(** ** The labels of the invoice lines *)

Lemma first_row_labels_nil : first_row_labels [] [].
Proof. intros item Hin. by apply elem_of_nil in Hin. Qed.

Lemma labels_step (es : list entry) (lines lines' : list invoice_item)
    (e : entry) :
  merged es lines -> first_row_labels es lines ->
  add_to_invoice (e_id e) (e_name e) (e_qty e) (e_price e) lines = Ok lines' ->
  first_row_labels (es ++ [e]) lines'.
Proof.
  intros (Hnd & _ & Hall) Hlab Hadd. unfold add_to_invoice in Hadd.
  destruct (list_find _ lines) as [[i item]|] eqn:Hfind.
  - apply list_find_Some in Hfind as (Hi & Hid & _).
    destruct (int_times_float _ _) as [x|]; [| discriminate].
    injection Hadd as <-.
    assert (Hitem : item ∈ lines) by (by eapply list_elem_of_lookup_2).
    intros it Hit. apply list_elem_of_lookup in Hit as [j Hj].
    destruct (decide (j = i)) as [-> | Hne].
    + rewrite list_lookup_insert_eq in Hj by (by eapply lookup_lt_Some).
      injection Hj as <-. cbn.
      destruct (Hlab item Hitem) as (e0 & rest & Hrows & Hname & Hprice).
      rewrite rows_for_snoc, Hrows. cbn. eauto.
    + rewrite list_lookup_insert_ne in Hj by done.
      assert (Hne' : e_id e <> Product_ID it).
      { intros Heq. apply Hne.
        apply (NoDup_lookup (Product_ID <$> lines) j i (Product_ID it));
          [done | by rewrite list_lookup_fmap, Hj |].
        rewrite list_lookup_fmap, Hi. cbn. congruence. }
      rewrite rows_for_snoc. rewrite decide_False by done.
      rewrite app_nil_r. apply Hlab. by eapply list_elem_of_lookup_2.
  - apply list_find_None in Hfind.
    destruct (int_times_float _ _) as [x|]; [| discriminate].
    injection Hadd as <-.
    intros it Hit. apply elem_of_app in Hit as [Hit | Hit].
    + assert (Hne' : e_id e <> Product_ID it).
      { rewrite Forall_forall in Hfind. intros Heq.
        destruct (Hfind it Hit). congruence. }
      rewrite rows_for_snoc. rewrite decide_False by done.
      rewrite app_nil_r. by apply Hlab.
    + apply list_elem_of_singleton in Hit as ->. cbn.
      assert (Hnew : rows_for (e_id e) es = []).
      { destruct (rows_for (e_id e) es) as [|e' r] eqn:Hr; [done |].
        assert (He' : e' ∈ rows_for (e_id e) es) by (rewrite Hr; left).
        apply list_elem_of_filter in He' as [Heq He'].
        destruct (Hall e' He') as (it & Hit & Hid).
        rewrite Forall_forall in Hfind. destruct (Hfind it Hit). congruence. }
      rewrite rows_for_snoc, Hnew. rewrite decide_True by done. cbn. eauto.
Qed.

Section InvoiceLabels.
Context `{Builtins}.

Lemma for_each_outgoing_labels (rows : list csv_row) :
  forall (es : list entry) (inv inv' : list invoice_item) (w w' : world),
    merged es inv -> first_row_labels es inv ->
    for_each outgoing_row rows inv w = (Ok inv', w') ->
    first_row_labels (es ++ omap outgoing_entry rows) inv'.
Proof.
  induction rows as [|row rows IH]; intros es inv inv' w w' Hm Hl Hrun.
  - cbn in Hrun. injection Hrun as <- <-. cbn. by rewrite app_nil_r.
  - cbn in Hrun. unfold bind in Hrun.
    destruct (outgoing_row row inv w) as [[inv1|err] w1] eqn:Hrow;
      [| discriminate].
    destruct (outgoing_entry row) as [e|] eqn:He.
    + replace (omap outgoing_entry (row :: rows))
        with (e :: omap outgoing_entry rows) by (cbn; by rewrite He).
      rewrite (outgoing_row_entry _ _ _ e He) in Hrow.
      injection Hrow as Hadd _.
      pose proof (merged_step es inv inv1 e Hm Hadd) as Hm1.
      pose proof (labels_step es inv inv1 e Hm Hl Hadd) as Hl1.
      specialize (IH _ _ _ _ _ Hm1 Hl1 Hrun).
      by rewrite <- app_assoc in IH.
    + replace (omap outgoing_entry (row :: rows))
        with (omap outgoing_entry rows) by (cbn; by rewrite He).
      destruct (outgoing_row_none _ _ _ _ _ He Hrow) as [-> ->].
      by eapply IH.
Qed.

(** X19.  Every line of the invoice that [process_outgoing_goods] emits
    carries the name and the unit price of the first row of the batch that
    names its product: the names and unit prices of the later rows of the
    product do not show in these two columns (the later prices do enter
    the total). *)
Theorem invoice_labels_of_first_row (filename : string)
    (rows : list csv_row) (w w' : world) :
  files w !! filename = Some rows ->
  process_outgoing_goods filename w = (Ok tt, w') ->
  exists lines,
    last (trace w') = Some (EvWriteInvoice lines filename) /\
    first_row_labels (omap outgoing_entry rows) lines.
Proof.
  intros Hf Hrun.
  apply process_outgoing_goods_ok in Hrun
    as (rows' & lines & w1 & stmts & Hf' & Hloop & _ & _ & ->).
  assert (rows' = rows) as -> by congruence.
  exists lines. cbn. split; [by rewrite last_app |].
  apply (for_each_outgoing_labels rows [] [] lines _ w1 merged_nil
           first_row_labels_nil Hloop).
Qed.

End InvoiceLabels.

Lemma invoice_labels_of_first_row_witness :
  exists lines,
    last (trace (snd (@process_outgoing_goods decimal_builtins "out.csv"
                        world_bolt))) =
      Some (EvWriteInvoice lines "out.csv") /\
    first_row_labels (omap (@outgoing_entry decimal_builtins) outgoing_batch)
      lines.
Proof.
  apply (@invoice_labels_of_first_row decimal_builtins "out.csv"%string
           outgoing_batch world_bolt); vm_compute; reflexivity.
Defined.

(** * The encoded content *)

Lemma split_from_sep (acc rest : string) :
  split_from acc (String "," (String " " rest)) =
    acc :: split_from EmptyString rest.
Proof. reflexivity. Qed.

Lemma split_from_other (acc : string) (c : ascii) (rest : string) :
  (c = ","%char -> forall rest', rest <> String " " rest') ->
  split_from acc (String c rest) =
    split_from (acc +:+ String c EmptyString) rest.
Proof.
  intros Hc.
  destruct c as [[] [] [] [] [] [] [] []]; try reflexivity.
  destruct rest as [|d rest']; [reflexivity |].
  destruct d as [[] [] [] [] [] [] [] []]; try reflexivity.
  by destruct (Hc eq_refl rest').
Qed.

Lemma sep_cases (c : ascii) (rest : string) :
  (c = ","%char /\ exists rest', rest = String " " rest') \/
  (c = ","%char -> forall rest', rest <> String " " rest').
Proof.
  destruct (decide (c = ","%char)) as [-> | Hc]; [| by right].
  destruct rest as [|d rest']; [by right |].
  destruct (decide (d = " "%char)) as [-> | Hd]; [left; eauto |].
  right. intros _ r [= ? ?]. done.
Qed.

Lemma string_length_ind (P : string -> Prop) :
  (forall s,
     (forall t, (String.length t < String.length s)%nat -> P t) -> P s) ->
  forall s, P s.
Proof.
  intros HP s. remember (String.length s) as n eqn:Hn. revert s Hn.
  induction n as [n IH] using lt_wf_ind. intros s ->.
  apply HP. intros t Ht. by apply (IH _ Ht).
Qed.

Lemma split_from_nonempty (s acc : string) : split_from acc s <> [].
Proof.
  revert acc.
  induction s as [s IH] using string_length_ind.
  intros acc. destruct s as [|c rest]; [done |].
  destruct (sep_cases c rest) as [[-> [rest' ->]] | Hno].
  - by rewrite split_from_sep.
  - rewrite split_from_other by done. apply IH. cbn. lia.
Qed.

Lemma append_assoc (a b c : string) : (a +:+ b) +:+ c = a +:+ (b +:+ c).
Proof. induction a as [|x a IH]; [done |]. by rewrite !append_cons, IH. Qed.

Lemma append_nil_r (a : string) : a +:+ EmptyString = a.
Proof. induction a as [|x a IH]; [done |]. by rewrite append_cons, IH. Qed.

Lemma join_split_from (s acc : string) :
  join_comma_space (split_from acc s) = acc +:+ s.
Proof.
  revert acc.
  induction s as [s IH] using string_length_ind.
  intros acc. destruct s as [|c rest].
  - cbn. by rewrite append_nil_r.
  - destruct (sep_cases c rest) as [[-> [rest' ->]] | Hno].
    + rewrite split_from_sep.
      pose proof (split_from_nonempty rest' EmptyString) as Hne.
      pose proof (IH rest' ltac:(cbn; lia) EmptyString) as Hrest.
      destruct (split_from EmptyString rest') as [|x l]; [done |].
      change (join_comma_space (acc :: x :: l))
        with (acc +:+ ", " +:+ join_comma_space (x :: l)).
      rewrite Hrest. by rewrite append_nil_l.
    + rewrite split_from_other by done.
      rewrite IH by (cbn; lia). by rewrite append_assoc.
Qed.

(** X20.  Splitting the encoded content at [", "] loses nothing: the
    pieces joined with [", "] give the content back, and there is always a
    first piece, so that reading the identifier never fails for want of a
    subfield. *)
Theorem split_join_roundtrip (s : string) :
  join_comma_space (split_comma_space s) = s /\
  exists s0 rest, split_comma_space s = s0 :: rest.
Proof.
  unfold split_comma_space. split.
  - by rewrite join_split_from, append_nil_l.
  - pose proof (split_from_nonempty s EmptyString) as Hne.
    destruct (split_from EmptyString s) as [|s0 rest]; [done | eauto].
Qed.

(** * Stock adjustments and the rest of the row *)

Lemma same_but_quantities_refl (t : table) : same_but_quantities t t.
Proof. intros i. split; [done |]. intros p p' Hp Hp'. by simplify_eq. Qed.

Lemma same_but_quantities_trans (t1 t2 t3 : table) :
  same_but_quantities t1 t2 -> same_but_quantities t2 t3 ->
  same_but_quantities t1 t3.
Proof.
  intros H12 H23 i. destruct (H12 i) as [Hn12 Hl12].
  destruct (H23 i) as [Hn23 Hl23]. split; [by rewrite Hn23 |].
  intros p p'' Hp Hp''.
  destruct (t2 !! i) as [p'|] eqn:Hp'.
  - destruct (Hl12 p p' Hp eq_refl) as (? & ? & ?).
    destruct (Hl23 p' p'' eq_refl Hp'') as (? & ? & ?).
    repeat split; congruence.
  - destruct Hn12 as [Hn12 _]. rewrite Hn12 in Hp by done. discriminate.
Qed.

Lemma same_but_quantities_alter (f : Z -> Z) (i : Z) (t : table) :
  same_but_quantities t
    (alter (fun p => set_quantity (f (quantity p)) p) i t).
Proof.
  intros j. rewrite lookup_alter. case_decide; subst.
  - destruct (t !! j) as [p|]; cbn; split; try done.
    intros p0 p' [= <-] [= <-]. done.
  - split; [done |]. intros p p' Hp Hp'. by simplify_eq.
Qed.

Lemma run_call_same_but_quantities (c : stock_call) (w : world) :
  same_but_quantities (store w) (store (snd (run_call c w))).
Proof.
  destruct c as [j q | j q]; cbn.
  - destruct (Z.lt_ge_cases q 0) as [Hq | Hq].
    + rewrite add_stock_negative by done. apply same_but_quantities_refl.
    + rewrite add_stock_run by done. cbn.
      apply (same_but_quantities_alter (fun x => x + q)).
  - destruct (Z.lt_ge_cases q 0) as [Hq | Hq].
    { rewrite remove_stock_negative by done. apply same_but_quantities_refl. }
    destruct (store w !! j) as [pj|] eqn:Hj.
    + destruct (Z.lt_ge_cases (quantity pj) q) as [Hlt | Hle].
      * rewrite (remove_stock_excess j q pj) by done.
        apply same_but_quantities_refl.
      * rewrite (remove_stock_run j q pj) by done. cbn.
        apply (same_but_quantities_alter (fun x => x - q)).
    + rewrite remove_stock_missing by done. apply same_but_quantities_refl.
Qed.

(** X21.  No sequence of [add_stock] and [remove_stock] calls creates or
    deletes a product, or changes a name, a price or a description: the
    store after the calls differs from the store before in quantities at
    most. *)
Theorem stock_calls_change_quantities_only (cs : list stock_call)
    (w : world) :
  same_but_quantities (store w) (store (run_calls cs w)).
Proof.
  revert w. induction cs as [|c cs IH]; intros w; cbn.
  - apply same_but_quantities_refl.
  - eapply same_but_quantities_trans; [apply run_call_same_but_quantities |].
    apply IH.
Qed.
